(** * Order management API: stock reservation and order lifecycle

    A shallow embedding of [src/nitin/Ecommerce-api-express-mongodb.js].

    The two MongoDB collections are finite maps keyed by the document's
    [_id]; every route handler is a function from the database to the
    database and a reply.  Numbers are integers ([Z]): the schema stores
    prices in the smallest currency unit and stock as a count; the total
    of an order is accumulated in the arithmetic of doubles.  An
    identifier is the ObjectId that the request's value is cast to; the
    routes on values that may fail to cast are [route_post_orders],
    [route_put_orders], [route_delete_orders] and [serve].  The
    [await] points of a handler are where another request can run; the
    order-creation route is therefore split at its first [await] into a
    read-only validation phase and a commit phase, so that an interleaved
    execution is the commit phase run on a later database than the one
    that was validated. *)

From Stdlib Require Import ZArith String List Lia.
From stdpp Require Import gmap strings list fin_maps.

Open Scope Z_scope.

(** ** Documents (lines 42-68) *)

(** [ProductSchema]. *)
Record Product := mkProduct {
  name : string;
  description : option string;
  price : Z;
  stock : Z;
  category : option string
}.

(** [OrderItemSchema]: [product] is the referenced product's [_id]. *)
Record OrderItem := mkOrderItem {
  product : string;
  quantity : Z;
  priceAtPurchase : Z
}.

(** The [enum] of the [status] path of [OrderSchema]. *)
Inductive Status :=
  | pending | confirmed | shipped | out_for_delivery | delivered | cancelled.

#[global] Instance Status_eq_dec : EqDecision Status.
Proof. solve_decision. Defined.

Definition Status_to_string (s : Status) : string :=
  match s with
  | pending => "pending"
  | confirmed => "confirmed"
  | shipped => "shipped"
  | out_for_delivery => "out_for_delivery"
  | delivered => "delivered"
  | cancelled => "cancelled"
  end.

(** A request carries the status as a string; only the six strings of the
    [enum] pass the schema validation run by [save()]. *)
Definition Status_of_string (s : string) : option Status :=
  if decide (s = "pending") then Some pending
  else if decide (s = "confirmed") then Some confirmed
  else if decide (s = "shipped") then Some shipped
  else if decide (s = "out_for_delivery") then Some out_for_delivery
  else if decide (s = "delivered") then Some delivered
  else if decide (s = "cancelled") then Some cancelled
  else None.

(** [OrderSchema]; dates are milliseconds since the epoch. *)
Record Order := mkOrder {
  customerId : Z;
  items : list OrderItem;
  totalAmount : Z;
  shippingAddress : option string;
  status : Status;
  createdAt : Z;
  updatedAt : Z;
  estimatedDelivery : Z
}.

(** The database: the [Product] and the [Order] collection. *)
Record Db := mkDb {
  products : gmap string Product;
  orders : gmap string Order
}.

(** ** Thrown values and replies *)

(** What a handler can throw: the object literals [{status, message}] of the
    helpers, a Mongoose validation error raised by [save()] (named by the
    model that failed validation), MongoDB's duplicate-key error raised when a new
    document's [_id] is already taken, and the cast error that a query on
    [_id] raises for a value that is not an ObjectId. *)
Inductive Exn :=
  | Thrown (code : Z) (message : string)
  | ValidationError (model : string)
  | DuplicateKey (id : string)
  | CastError (value : string).

Inductive Result (A : Type) :=
  | Ok (a : A)
  | Throw (e : Exn).
Arguments Ok {A} a.
Arguments Throw {A} e.

#[global] Instance Result_bind : MBind Result := λ A B k r,
  match r with
  | Ok a => k a
  | Throw e => Throw e
  end.

(** ** The Product collection's update primitive *)

(** The result object of [updateOne]. *)
Record UpdateResult := mkUpdateResult {
  matchedCount : Z;
  modifiedCount : Z
}.

Definition set_stock (n : Z) (p : Product) : Product :=
  {| name := name p; description := description p; price := price p;
     stock := n; category := category p |}.

(** [Product.updateOne({_id: id, ...cond}, {$inc: {stock: delta}})]: a single
    atomic conditional update.  The document is matched when it exists and
    satisfies [cond]; it counts as modified when the increment changes it. *)
Definition updateOne (id : string) (cond : Product → bool) (delta : Z)
    (ps : gmap string Product) : gmap string Product * UpdateResult :=
  match ps !! id with
  | Some p =>
      if cond p
      then (<[id := set_stock (stock p + delta) p]> ps,
            {| matchedCount := 1;
               modifiedCount := if decide (delta = 0) then 0 else 1 |})
      else (ps, {| matchedCount := 0; modifiedCount := 0 |})
  | None => (ps, {| matchedCount := 0; modifiedCount := 0 |})
  end.

(** [Product.find({_id: {$in: ids}})] once every element of [ids] has been
    cast to an ObjectId (the cast itself is [Product_find] below): the
    documents whose [_id] occurs in [ids], each once, paired with their
    [_id]. *)
Definition Product_find_in (ids : list string) (ps : gmap string Product)
    : list (string * Product) :=
  filter (λ d, d.1 ∈ ids) (map_to_list ps).

(** ** Number arithmetic *)

(** JavaScript numbers are IEEE-754 doubles.  The numbers of this program
    are integers, and a sum or product of two integer-valued doubles is the
    exact result rounded to the nearest double, ties to even: integers up
    to [2 ^ 53] in magnitude are doubles, and beyond that the doubles are
    the multiples of a power of two with 53 significant bits.  (Results are
    taken below the overflow threshold [2 ^ 1024].) *)
Definition round_double (z : Z) : Z :=
  if decide (Z.abs z ≤ 2 ^ 53) then z
  else
    let ulp := 2 ^ (Z.log2 (Z.abs z) - 52) in
    let q := Z.abs z / ulp in
    let r := Z.abs z mod ulp in
    let q' := if decide (2 * r < ulp) then q
              else if decide (ulp < 2 * r) then q + 1
              else if Z.even q then q else q + 1 in
    Z.sgn z * (q' * ulp).

(** [a * b] and [a + b] on numbers. *)
Definition js_mul (a b : Z) : Z := round_double (a * b).
Definition js_add (a b : Z) : Z := round_double (a + b).

(** ** Helper functions (lines 71-110) *)

(** An item of a request after normalisation (line 153).  Validation
    casts [productId] to an ObjectId; [calculateTotalAndCheckStock] below
    is the function on identifiers that cast, and
    [calculateTotalAndCheckStock_raw] the function on any. *)
Record Item := mkItem {
  productId : string;
  i_quantity : Z
}.

(** An element of [enriched]: the product document found at validation time,
    the quantity and the unit price. *)
Record Enriched := mkEnriched {
  e_product : string * Product;
  e_quantity : Z;
  e_priceAtPurchase : Z
}.

(** The [items.map] of lines 80-86, with the running [total]. *)
Fixpoint enrich (found : list (string * Product)) (its : list Item) (total : Z)
    : Result (Z * list Enriched) :=
  match its with
  | [] => Ok (total, [])
  | item :: rest =>
      match List.find (λ pp, bool_decide (pp.1 = productId item)) found with
      | None =>
          Throw (Thrown 400 ("Product " +:+ productId item +:+ " not found"))
      | Some p =>
          if decide (stock p.2 < i_quantity item)
          then Throw (Thrown 400 ("Insufficient stock for product " +:+ p.1
                                    +:+ " (" +:+ name p.2 +:+ ")"))
          else
            '(t, en) ← enrich found rest
                         (js_add total (js_mul (price p.2) (i_quantity item)));
            Ok (t, {| e_product := p; e_quantity := i_quantity item;
                      e_priceAtPurchase := price p.2 |} :: en)
      end
  end.

Definition calculateTotalAndCheckStock (its : list Item)
    (ps : gmap string Product) : Result (Z * list Enriched) :=
  let productIds := productId <$> its in
  let found := Product_find_in productIds ps in
  if decide (length found ≠ length productIds)
  then Throw (Thrown 400 "One or more products not found")
  else enrich found its 0.

(** The updates of [reduceStock] (lines 93-96), issued in item order. *)
Fixpoint reserve_ops (en : list Enriched) (ps : gmap string Product)
    : gmap string Product * list UpdateResult :=
  match en with
  | [] => (ps, [])
  | it :: rest =>
      let '(ps1, r) :=
        updateOne (e_product it).1
          (λ p, bool_decide (e_quantity it ≤ stock p)) (- e_quantity it) ps in
      let '(ps2, rs) := reserve_ops rest ps1 in
      (ps2, r :: rs)
  end.

(** The loop of lines 98-102 over the results: the first update that matched
    nothing makes [reduceStock] throw, naming that item's product. *)
Fixpoint check_results (en : list Enriched) (res : list UpdateResult)
    : Result unit :=
  match en, res with
  | it :: en', r :: res' =>
      if decide (modifiedCount r = 0 ∧ matchedCount r = 0)
      then Throw (Thrown 500 ("Failed to reserve stock for product "
                                +:+ (e_product it).1))
      else check_results en' res'
  | _, _ => Ok ()
  end.

Definition reduceStock (en : list Enriched) (ps : gmap string Product)
    : gmap string Product * Result unit :=
  let '(ps', res) := reserve_ops en ps in
  (ps', check_results en res).

(** [restoreStock] (lines 105-110): one unconditional increment per item;
    the results are not inspected.  An item is [(product id, quantity)]. *)
Fixpoint restoreStock (its : list (string * Z)) (ps : gmap string Product)
    : gmap string Product :=
  match its with
  | [] => ps
  | it :: rest => restoreStock rest (updateOne it.1 (λ _, true) it.2 ps).1
  end.

(** ** Requests and replies *)

(** What the environment supplies to a handler: the clock read by the
    handler itself ([Date.now()], [new Date()]), the clock read by the
    schema's date defaults, and the [_id] assigned to a new document. *)
Record Ctx := mkCtx {
  date_now : Z;
  doc_now : Z;
  new_id : string
}.

(** Bodies of [POST /v1/orders], [PUT /v1/orders/:id], [POST /v1/products]. *)
Record OrderBody := mkOrderBody {
  customer_id : Z;
  b_items : list Item;
  shipping_address : option string
}.

Record UpdateBody := mkUpdateBody {
  b_status : option string;
  b_shipping_address : option string
}.

Record ProductBody := mkProductBody {
  b_name : option string;
  b_description : option string;
  b_price : option Z;
  b_stock : option Z;
  b_category : option string
}.

Inductive Payload :=
  | error_json (error : string)
  | order_created (order_id : string) (st : Status) (total_amount : Z)
  | order_status_ok (order_id : string) (st : Status)
  | order_address_ok (order_id : string) (address : string)
  | product_json (id : string) (p : Product)
  | seed_json (created : list (string * Product)).

(** A handler either answers with [res.status(code).json(body)] or passes
    what it caught to the error middleware with [next(err)]. *)
Inductive Reply :=
  | Json (code : Z) (body : Payload)
  | Next (err : Exn).

(** The status code the client sees (error middleware, lines 284-288). *)
Definition http_status (r : Reply) : Z :=
  match r with
  | Json code _ => code
  | Next (Thrown code message) =>
      if decide (code ≠ 0 ∧ message ≠ "") then code else 500
  | Next _ => 500
  end.

(** A JavaScript string option used as a condition. *)
Definition truthy (s : option string) : bool :=
  match s with
  | Some s => bool_decide (s ≠ "")
  | None => false
  end.

(** [['shipped','out_for_delivery','delivered'].includes(order.status)]. *)
Definition shipped_or_later (st : Status) : bool :=
  match st with
  | shipped | out_for_delivery | delivered => true
  | pending | confirmed | cancelled => false
  end.

(** ** Schema validation run by [save()] *)

Definition OrderItem_valid (it : OrderItem) : bool :=
  bool_decide (1 ≤ quantity it) && bool_decide (0 ≤ priceAtPurchase it).

Definition Order_valid (o : Order) : bool :=
  forallb OrderItem_valid (items o) && bool_decide (0 ≤ totalAmount o).

(** [order.save()] of a new document. *)
Definition Order_save_new (id : string) (o : Order) (os : gmap string Order)
    : Result (gmap string Order) :=
  if Order_valid o
  then match os !! id with
       | Some _ => Throw (DuplicateKey id)
       | None => Ok (<[id := o]> os)
       end
  else Throw (ValidationError "Order").

Definition set_status (st : Status) (now : Z) (o : Order) : Order :=
  {| customerId := customerId o; items := items o;
     totalAmount := totalAmount o; shippingAddress := shippingAddress o;
     status := st; createdAt := createdAt o; updatedAt := now;
     estimatedDelivery := estimatedDelivery o |}.

Definition set_shippingAddress (a : string) (now : Z) (o : Order) : Order :=
  {| customerId := customerId o; items := items o;
     totalAmount := totalAmount o; shippingAddress := Some a;
     status := status o; createdAt := createdAt o; updatedAt := now;
     estimatedDelivery := estimatedDelivery o |}.

Definition with_products (ps : gmap string Product) (db : Db) : Db :=
  {| products := ps; orders := orders db |}.

(** ** [POST /v1/orders] (lines 145-178) *)

Definition five_days : Z := 5 * 24 * 60 * 60 * 1000.

(** Line 162. *)
Definition orderItems (en : list Enriched) : list OrderItem :=
  (λ e, {| product := (e_product e).1; quantity := e_quantity e;
           priceAtPurchase := e_priceAtPurchase e |}) <$> en.

(** Lines 163-170. *)
Definition new_Order (c : Ctx) (b : OrderBody) (total : Z)
    (en : list Enriched) : Order :=
  {| customerId := customer_id b;
     items := orderItems en;
     totalAmount := total;
     shippingAddress := shipping_address b;
     status := confirmed;
     createdAt := doc_now c;
     updatedAt := doc_now c;
     estimatedDelivery := date_now c + five_days |}.

(** Lines 159-173: everything after the first [await].  The [catch] of
    line 174 only forwards the error: nothing is undone. *)
Definition post_orders_commit (c : Ctx) (b : OrderBody) (total : Z)
    (en : list Enriched) (db : Db) : Db * Reply :=
  let '(ps', r) := reduceStock en (products db) in
  match r with
  | Throw e => (with_products ps' db, Next e)
  | Ok _ =>
      let order := new_Order c b total en in
      match Order_save_new (new_id c) order (orders db) with
      | Throw e => (with_products ps' db, Next e)
      | Ok os =>
          ({| products := ps'; orders := os |},
           Json 201 (order_created (new_id c) (status order)
                       (totalAmount order)))
      end
  end.

(** Lines 147-156: the guard and the validation, which only read. *)
Definition post_orders_validate (b : OrderBody) (db : Db)
    : Reply + Z * list Enriched :=
  if decide (customer_id b = 0 ∨ b_items b = [])
  then inl (Json 400 (error_json "customer_id and items are required"))
  else match calculateTotalAndCheckStock (b_items b) (products db) with
       | Throw e => inl (Next e)
       | Ok r => inr r
       end.

(** The handler run without another request in between. *)
Definition post_orders (c : Ctx) (b : OrderBody) (db : Db) : Db * Reply :=
  match post_orders_validate b db with
  | inl reply => (db, reply)
  | inr (total, en) => post_orders_commit c b total en db
  end.

(** ** [PUT /v1/orders/:id] (lines 200-241) *)

(** [id] is the ObjectId that [req.params.id] is cast to by
    [Order.findById]; [route_put_orders] is the route on any value. *)

Definition order_items_to_restore (o : Order) : list (string * Z) :=
  (λ it, (product it, quantity it)) <$> items o.

Definition put_orders (c : Ctx) (id : string) (b : UpdateBody) (db : Db)
    : Db * Reply :=
  match orders db !! id with
  | None => (db, Json 404 (error_json "Order not found"))
  | Some order =>
      if decide (b_status b = Some "cancelled") then
        if shipped_or_later (status order)
        then (db, Json 400 (error_json
                "Cannot cancel an order already shipped or delivered"))
        else
          let ps' := restoreStock (order_items_to_restore order) (products db) in
          let order' := set_status cancelled (date_now c) order in
          ({| products := ps'; orders := <[id := order']> (orders db) |},
           Json 200 (order_status_ok id (status order')))
      else if truthy (b_shipping_address b) then
        if shipped_or_later (status order)
        then (db, Json 400 (error_json "Cannot change address after shipping"))
        else
          let a := default "" (b_shipping_address b) in
          let order' := set_shippingAddress a (date_now c) order in
          ({| products := products db; orders := <[id := order']> (orders db) |},
           Json 200 (order_address_ok id a))
      else if truthy (b_status b) then
        match Status_of_string (default "" (b_status b)) with
        | None => (db, Next (ValidationError "Order"))
        | Some st =>
            let order' := set_status st (date_now c) order in
            ({| products := products db; orders := <[id := order']> (orders db) |},
             Json 200 (order_status_ok id (status order')))
        end
      else (db, Json 400 (error_json "No actionable fields provided"))
  end.

(** ** [DELETE /v1/orders/:id] (lines 244-256) *)

(** [id] is the ObjectId that [req.params.id] is cast to;
    [route_delete_orders] is the route on any value.
    The handler assigns [status] only.  When that changes the document,
    [save()] writes it and the schema's [timestamps] option stamps
    [updatedAt]; when the order is already cancelled the assignment
    changes nothing and [save()] writes nothing. *)
Definition delete_orders (c : Ctx) (id : string) (db : Db) : Db * Reply :=
  match orders db !! id with
  | None => (db, Json 404 (error_json "Order not found"))
  | Some order =>
      if shipped_or_later (status order)
      then (db, Json 400 (error_json
              "Cannot delete an order already shipped/delivered"))
      else
        let ps' := restoreStock (order_items_to_restore order) (products db) in
        let order' :=
          if decide (status order = cancelled) then order
          else set_status cancelled (doc_now c) order in
        ({| products := ps'; orders := <[id := order']> (orders db) |},
         Json 200 (order_status_ok id cancelled))
  end.

(** ** [POST /v1/products] (lines 134-141) and [POST /v1/seed] (268-281) *)

(** [new Product(body)] followed by the validation of [p.save()]: [name]
    and [price] are required, [price] and [stock] have [min: 0], [stock]
    defaults to 0. *)
Definition new_Product (b : ProductBody) : Result Product :=
  match b_name b, b_price b with
  | Some n, Some pr =>
      let st := default 0 (b_stock b) in
      if bool_decide (n ≠ "") && bool_decide (0 ≤ pr) && bool_decide (0 ≤ st)
      then Ok {| name := n; description := b_description b; price := pr;
                 stock := st; category := b_category b |}
      else Throw (ValidationError "Product")
  | _, _ => Throw (ValidationError "Product")
  end.

Definition post_products (c : Ctx) (b : ProductBody) (db : Db) : Db * Reply :=
  match new_Product b with
  | Throw e => (db, Next e)
  | Ok p =>
      match products db !! new_id c with
      | Some _ => (db, Next (DuplicateKey (new_id c)))
      | None =>
          (with_products (<[new_id c := p]> (products db)) db,
           Json 201 (product_json (new_id c) p))
      end
  end.

Definition sample : list Product :=
  [ mkProduct "Wireless Headphones" (Some "Noise-cancelling over-ear")
      249900 10 (Some "Electronics");
    mkProduct "T-Shirt" (Some "100% cotton") 59900 30 (Some "Clothing");
    mkProduct "Coffee Mug" (Some "Ceramic 350ml") 19900 50 (Some "Home");
    mkProduct "USB-C Cable" (Some "1m fast charging") 39900 100
      (Some "Accessories");
    mkProduct "Notebook" (Some "200 pages ruled") 12900 200
      (Some "Stationery") ].

(** [deleteMany({})] then [insertMany(sample)]; [ids] are the [_id]s the
    driver assigns to the inserted documents. *)
Definition post_seed (ids : list string) (db : Db) : Db * Reply :=
  let created := zip ids sample in
  (with_products (list_to_map created) db, Json 200 (seed_json created)).

(** ** The server as a transition system *)

(** The routes that write.  The [GET] routes only read and are left out. *)
Inductive Request :=
  | POST_products (c : Ctx) (b : ProductBody)
  | POST_orders (c : Ctx) (b : OrderBody)
  | PUT_orders (c : Ctx) (id : string) (b : UpdateBody)
  | DELETE_orders (c : Ctx) (id : string)
  | POST_seed (ids : list string).

Definition handle (r : Request) (db : Db) : Db * Reply :=
  match r with
  | POST_products c b => post_products c b db
  | POST_orders c b => post_orders c b db
  | PUT_orders c id b => put_orders c id b db
  | DELETE_orders c id => delete_orders c id db
  | POST_seed ids => post_seed ids db
  end.

(** Requests served one after the other. *)
Definition run (rs : list Request) (db : Db) : Db :=
  foldl (λ d r, (handle r d).1) db rs.

(** One step of the server while requests overlap: a whole request, or the
    commit phase of an order creation whose validation phase ran earlier
    and read some database [db0].  (Any [db0] is allowed, which only adds
    behaviours.) *)
Inductive step : Db → Db → Prop :=
  | step_handle r db :
      step db (handle r db).1
  | step_commit c b db0 total en db :
      post_orders_validate b db0 = inr (total, en) →
      step db (post_orders_commit c b total en db).1.

Definition reachable (db : Db) : Prop := rtc step (mkDb ∅ ∅) db.

(** ** Quantities the properties are stated with *)

(** Sum of price at purchase times quantity over the items of an order. *)
Definition items_total (its : list OrderItem) : Z :=
  foldr (λ it acc, priceAtPurchase it * quantity it + acc) 0 its.

(** The same sum as line 84 accumulates it, in number arithmetic, starting
    from [total]. *)
Definition js_total_from (total : Z) (its : list OrderItem) : Z :=
  foldl (λ acc it, js_add acc (js_mul (priceAtPurchase it) (quantity it)))
    total its.

Definition js_total (its : list OrderItem) : Z := js_total_from 0 its.

(** Total quantity that the items of an order hold of product [k]. *)
Definition ordered_quantity (k : string) (its : list OrderItem) : Z :=
  foldr (λ it acc, if decide (product it = k) then quantity it + acc else acc)
    0 its.

(** Total quantity that a list of [(product id, quantity)] asks of [id]. *)
Definition quantity_of (id : string) (its : list (string * Z)) : Z :=
  foldr (λ it acc, if decide (it.1 = id) then it.2 + acc else acc) 0 its.

Definition enriched_pairs (en : list Enriched) : list (string * Z) :=
  (λ e, ((e_product e).1, e_quantity e)) <$> en.

Definition stock_of (ps : gmap string Product) (id : string) : option Z :=
  stock <$> ps !! id.

(** The items of a [reduceStock] call whose guarded decrement matched, as
    [(product id, quantity)]. *)
Fixpoint granted (en : list Enriched) (res : list UpdateResult)
    : list (string * Z) :=
  match en, res with
  | it :: en', r :: res' =>
      if decide (matchedCount r = 0) then granted en' res'
      else ((e_product it).1, e_quantity it) :: granted en' res'
  | _, _ => []
  end.

(** The stock invariant of [ProductSchema] ([min: 0]). *)
Definition stock_nonneg (ps : gmap string Product) : Prop :=
  map_Forall (λ _ p, 0 ≤ stock p) ps.

(** What a successful validation returns for an item: the product as it was
    in the collection read, the requested quantity and the product's
    price. *)
Definition enriched_from (ps : gmap string Product) (item : Item)
    (e : Enriched) : Prop :=
  ∃ p, ps !! productId item = Some p ∧ i_quantity item ≤ stock p ∧
       e = {| e_product := (productId item, p);
              e_quantity := i_quantity item;
              e_priceAtPurchase := price p |}.

(** The order invariants: the documents satisfy the schema and the total is
    the sum over the items as line 84 accumulates it. *)
Definition total_ok (o : Order) : Prop :=
  totalAmount o = js_total (items o).

Definition Inv (db : Db) : Prop :=
  stock_nonneg (products db) ∧
  map_Forall (λ _ o, Order_valid o = true ∧ total_ok o) (orders db).

(** [o'] records the same purchase as [o]: same items, same total. *)
Definition same_purchase (o o' : Order) : Prop :=
  items o' = items o ∧ totalAmount o' = totalAmount o.

(** The database after the cancellation of order [id], found as [o]: stock
    restored for its items, status [cancelled], [updatedAt] set to [now]
    (lines 212-216 and 250-253). *)
Definition cancelled_db (now : Z) (id : string) (o : Order) (db : Db) : Db :=
  {| products := restoreStock (order_items_to_restore o) (products db);
     orders := <[id := set_status cancelled now o]> (orders db) |}.

(** ** The reading routes *)

(** What the [GET] routes modelled here answer with.  Their [id] is the
    ObjectId that [req.params.id] is cast to; [route_get_product],
    [route_get_order] and [route_get_order_status] are the routes on any
    value. *)
Inductive ReadPayload :=
  | read_error (error : string)
  | product_doc (id : string) (p : Product)
  | status_doc (order_id : string) (st : Status) (estimated_delivery : Z).

(** [GET /v1/products/:id] (lines 125-131). *)
Definition get_product (id : string) (db : Db) : Z * ReadPayload :=
  match products db !! id with
  | None => (404, read_error "Product not found")
  | Some p => (200, product_doc id p)
  end.

(** [GET /v1/orders/:id/status] (lines 259-265). *)
Definition get_order_status (id : string) (db : Db) : Z * ReadPayload :=
  match orders db !! id with
  | None => (404, read_error "Order not found")
  | Some order =>
      (200, status_doc id (status order) (estimatedDelivery order))
  end.

(** [GET /v1/orders/:id] (lines 191-197): the order with, for every item,
    the product that [populate('items.product', 'name description price')]
    puts in place of the reference: the selected fields of the product
    the catalogue holds now, or nothing when it holds none. *)
Record PopulatedProduct := mkPopulatedProduct {
  pp_id : string;
  pp_name : string;
  pp_description : option string;
  pp_price : Z
}.

Definition populate (ps : gmap string Product) (it : OrderItem)
    : option PopulatedProduct :=
  (λ p, {| pp_id := product it; pp_name := name p;
           pp_description := description p; pp_price := price p |})
    <$> ps !! product it.

Inductive OrderReply :=
  | order_error (error : string)
  | order_doc (id : string) (o : Order)
      (populated : list (option PopulatedProduct)).

Definition get_order (id : string) (db : Db) : Z * OrderReply :=
  match orders db !! id with
  | None => (404, order_error "Order not found")
  | Some order =>
      (200, order_doc id order (populate (products db) <$> items order))
  end.

(** ** Further notions the properties are stated with *)

(** The item asks for more than the product it names has in stock
    (line 83). *)
Definition short_of (ps : gmap string Product) (it : Item) : bool :=
  match ps !! productId it with
  | Some p => bool_decide (stock p < i_quantity it)
  | None => false
  end.

(** The request's items as [(product id, quantity)]. *)
Definition item_pairs (its : list Item) : list (string * Z) :=
  (λ it, (productId it, i_quantity it)) <$> its.

(** [p'] is [p] but for its stock. *)
Definition same_article (p p' : Product) : Prop :=
  name p' = name p ∧ description p' = description p ∧
  price p' = price p ∧ category p' = category p.

(** The fields of an order that no route assigns after creation. *)
Definition same_origin (o o' : Order) : Prop :=
  customerId o' = customerId o ∧ createdAt o' = createdAt o ∧
  estimatedDelivery o' = estimatedDelivery o.

(** The routes that serve orders. *)
Definition order_route (r : Request) : bool :=
  match r with
  | POST_orders _ _ | PUT_orders _ _ _ | DELETE_orders _ _ => true
  | POST_products _ _ | POST_seed _ => false
  end.

(** ** Identifiers that are not ObjectIds *)

(** The definitions above take the identifiers of a request as the
    ObjectIds they are cast to.  A query on [_id] first casts the value it
    is given, and throws a cast error when the value is not an ObjectId;
    the routes below are the routes on the identifiers as the request
    gives them.  Which strings are ObjectIds is the library's rule, not
    the program's: the routes are defined for any such rule. *)
Section cast.
Variable is_ObjectId : string → bool.

(** [Product.find({_id: {$in: ids}})] (line 74). *)
Definition Product_find (ids : list string) (ps : gmap string Product)
    : Result (list (string * Product)) :=
  match List.find (λ id, negb (is_ObjectId id)) ids with
  | Some bad => Throw (CastError bad)
  | None => Ok (Product_find_in ids ps)
  end.

(** [calculateTotalAndCheckStock] (lines 71-89) on the items of the
    request. *)
Definition calculateTotalAndCheckStock_raw (its : list Item)
    (ps : gmap string Product) : Result (Z * list Enriched) :=
  let productIds := productId <$> its in
  found ← Product_find productIds ps;
  if decide (length found ≠ length productIds)
  then Throw (Thrown 400 "One or more products not found")
  else enrich found its 0.

(** [POST /v1/orders] (lines 145-178). *)
Definition route_post_orders (c : Ctx) (b : OrderBody) (db : Db)
    : Db * Reply :=
  if decide (customer_id b = 0 ∨ b_items b = [])
  then (db, Json 400 (error_json "customer_id and items are required"))
  else match calculateTotalAndCheckStock_raw (b_items b) (products db) with
       | Throw e => (db, Next e)
       | Ok (total, en) => post_orders_commit c b total en db
       end.

(** [PUT /v1/orders/:id] and [DELETE /v1/orders/:id]: [Order.findById]
    (lines 203 and 246) comes first. *)
Definition route_put_orders (c : Ctx) (id : string) (b : UpdateBody)
    (db : Db) : Db * Reply :=
  if is_ObjectId id then put_orders c id b db else (db, Next (CastError id)).

Definition route_delete_orders (c : Ctx) (id : string) (db : Db)
    : Db * Reply :=
  if is_ObjectId id then delete_orders c id db else (db, Next (CastError id)).

(** The reading routes (lines 127, 193 and 261). *)
Definition route_get_product (id : string) (db : Db)
    : Result (Z * ReadPayload) :=
  if is_ObjectId id then Ok (get_product id db) else Throw (CastError id).

Definition route_get_order (id : string) (db : Db)
    : Result (Z * OrderReply) :=
  if is_ObjectId id then Ok (get_order id db) else Throw (CastError id).

Definition route_get_order_status (id : string) (db : Db)
    : Result (Z * ReadPayload) :=
  if is_ObjectId id then Ok (get_order_status id db)
  else Throw (CastError id).

(** The writing routes on requests as they arrive. *)
Definition serve (r : Request) (db : Db) : Db * Reply :=
  match r with
  | POST_products c b => post_products c b db
  | POST_orders c b => route_post_orders c b db
  | PUT_orders c id b => route_put_orders c id b db
  | DELETE_orders c id => route_delete_orders c id db
  | POST_seed ids => post_seed ids db
  end.
End cast.

(** A rule for the examples: the strings of 24 hexadecimal digits. *)
Definition hex24 (s : string) : bool :=
  bool_decide (String.length s = 24%nat) &&
  forallb (λ a, bool_decide
                  (a ∈ list_ascii_of_string "0123456789abcdefABCDEF"))
    (list_ascii_of_string s).

(** ** Reservations that overlap *)


Definition served_store (ops : list (nat * Enriched))
    (ps : gmap string Product) : gmap string Product :=
  (reserve_ops (snd <$> ops) ps).1.





(** ** A small shop used in the examples *)

Module Shop.
Definition mug : Product := mkProduct "Mug" None 100 5 None.
Definition pen : Product := mkProduct "Pen" None 30 1 None.

Definition stockroom : gmap string Product :=
  <["A" := mug]> (<["B" := pen]> ∅).

(** Two overlapping orders: the first asks for two mugs and the only
    pen, the second for the pen. *)
Definition first : OrderBody :=
  mkOrderBody 7 [mkItem "A" 2; mkItem "B" 1] None.
Definition second : OrderBody :=
  mkOrderBody 8 [mkItem "B" 1] None.
Definition twice : OrderBody :=
  mkOrderBody 7 [mkItem "A" 1; mkItem "A" 1] None.

Definition c1 : Ctx := mkCtx 1000 1001 "o1".
Definition c2 : Ctx := mkCtx 2000 2001 "o2".

Definition open_shop : Db := mkDb stockroom ∅.

(** What the validation of [first] returns on [open_shop]. *)
Definition first_enriched : list Enriched :=
  [mkEnriched ("A", mug) 2 100; mkEnriched ("B", pen) 1 30].

(** An order of two mugs in a given status, and a shop holding it. *)
Definition two_mugs (st : Status) : Order :=
  mkOrder 7 [mkOrderItem "A" 2 100] 200 None st 1001 1001 432001000.

Definition shop_with (st : Status) : Db :=
  mkDb stockroom {[ "o1" := two_mugs st ]}.

(** The same order after the mug has left the catalogue. *)
Definition shop_without_mug : Db :=
  mkDb {[ "B" := pen ]} {[ "o1" := two_mugs confirmed ]}.

Definition cancel : UpdateBody := mkUpdateBody (Some "cancelled") None.
Definition set_to (st : Status) : UpdateBody :=
  mkUpdateBody (Some (Status_to_string st)) None.
End Shop.

(** ** Further examples *)

Module Desk.
(** A product priced at the largest odd double. *)
Definition ingot : Product := mkProduct "Ingot" None (2 ^ 53 - 1) 5 None.
Definition vault : Db := mkDb {[ "G" := ingot ]} ∅.
Definition three_ingots : OrderBody := mkOrderBody 7 [mkItem "G" 3] None.

(** Requests for no mug, for minus ten mugs and for fifteen mugs. *)
Definition no_mug : OrderBody := mkOrderBody 7 [mkItem "A" 0] None.

(** A catalogue under ObjectIds. *)
Definition lamp_id : string := "64b0f0a1c2d3e4f5a6b7c8d9".
Definition free_id : string := "64b0f0a1c2d3e4f5a6b7c8da".
Definition lamp : Product := mkProduct "Lamp" None 4500 2 None.
Definition showroom : Db := mkDb {[ lamp_id := lamp ]} ∅.
End Desk.

(** * Properties *)

(** ** The update primitive *)

Section update_primitive.
Implicit Types (ps : gmap string Product) (p : Product) (id : string).

Lemma stock_set_stock n p : stock (set_stock n p) = n.
Proof. reflexivity. Qed.

Lemma set_stock_set_stock n m p : set_stock n (set_stock m p) = set_stock n p.
Proof. reflexivity. Qed.

Lemma set_stock_same p n : n = stock p → set_stock n p = p.
Proof. intros ->. by destruct p. Qed.

Lemma updateOne_lookup_ne id j cond delta ps :
  id ≠ j → (updateOne id cond delta ps).1 !! j = ps !! j.
Proof.
  intros Hne. unfold updateOne.
  destruct (ps !! id) as [p|]; [|done].
  destruct (cond p); [|done]. simpl. by rewrite lookup_insert_ne.
Qed.

(** An update matches exactly when the document exists and passes the
    condition; an update that matches nothing changes nothing. *)
Lemma updateOne_matched id cond delta ps :
  matchedCount (updateOne id cond delta ps).2 ≠ 0
  ↔ ∃ p, ps !! id = Some p ∧ cond p = true.
Proof.
  unfold updateOne. destruct (ps !! id) as [p|] eqn:Hp.
  - destruct (cond p) eqn:Hc; simpl; split; try done.
    + intros _. by exists p.
    + intros (p' & [= <-] & ?). congruence.
  - simpl. split; [done|]. by intros (p' & [=] & _).
Qed.

Lemma updateOne_unmatched id cond delta ps :
  matchedCount (updateOne id cond delta ps).2 = 0 →
  (updateOne id cond delta ps).1 = ps.
Proof.
  unfold updateOne. destruct (ps !! id) as [p|]; [|done].
  by destruct (cond p).
Qed.

Lemma updateOne_hit id cond delta ps p :
  ps !! id = Some p → cond p = true →
  updateOne id cond delta ps
  = (<[id := set_stock (stock p + delta) p]> ps,
     {| matchedCount := 1;
        modifiedCount := if decide (delta = 0) then 0 else 1 |}).
Proof. intros Hp Hc. unfold updateOne. by rewrite Hp, Hc. Qed.

(** The thrown-on condition of [reduceStock] is "matched nothing". *)
Lemma updateOne_failed_iff id cond delta ps :
  let r := (updateOne id cond delta ps).2 in
  modifiedCount r = 0 ∧ matchedCount r = 0 ↔ matchedCount r = 0.
Proof.
  unfold updateOne. destruct (ps !! id) as [p|]; simpl; [|tauto].
  destruct (cond p); simpl; [|tauto]. split; [tauto|done].
Qed.

(** The unconditional increment, seen from one product. *)
Lemma updateOne_inc_lookup id j delta ps :
  (updateOne id (λ _, true) delta ps).1 !! j
  = (λ p, set_stock (stock p + (if decide (id = j) then delta else 0)) p)
      <$> ps !! j.
Proof.
  destruct (decide (id = j)) as [->|Hne].
  - unfold updateOne. destruct (ps !! j) as [p|] eqn:Hp; simpl.
    + by rewrite lookup_insert_eq.
    + by rewrite Hp.
  - rewrite updateOne_lookup_ne by done.
    destruct (ps !! j) as [p|]; simpl; [|done].
    f_equal. symmetry. apply set_stock_same. lia.
Qed.
End update_primitive.

(** ** Release *)

Section release.
Implicit Types (ps : gmap string Product) (its : list (string * Z)).

(** [restoreStock] adds to every product that exists the total quantity
    the list holds for it, and creates no product. *)
Lemma restoreStock_lookup its ps id :
  restoreStock its ps !! id
  = (λ p, set_stock (stock p + quantity_of id its) p) <$> ps !! id.
Proof.
  revert ps. induction its as [|[k q] its IH]; intros ps; simpl.
  - destruct (ps !! id) as [p|]; simpl; [|done].
    f_equal. symmetry. apply set_stock_same. lia.
  - rewrite IH, updateOne_inc_lookup. simpl.
    destruct (ps !! id) as [p|]; simpl; [|done].
    f_equal. unfold set_stock; simpl.
    f_equal. destruct (decide (k = id)); lia.
Qed.

Lemma restoreStock_stock_of its ps id :
  stock_of (restoreStock its ps) id
  = (λ s, s + quantity_of id its) <$> stock_of ps id.
Proof.
  unfold stock_of. rewrite restoreStock_lookup.
  by destruct (ps !! id).
Qed.

Lemma quantity_of_cons id k q its :
  quantity_of id ((k, q) :: its)
  = (if decide (k = id) then q else 0) + quantity_of id its.
Proof. simpl. destruct (decide (k = id)); lia. Qed.

Lemma quantity_of_nonneg id its :
  Forall (λ it, 0 ≤ it.2) its → 0 ≤ quantity_of id its.
Proof.
  induction 1 as [|[k q] its Hq _ IH]; simpl in *; [done|].
  destruct (decide (k = id)); lia.
Qed.
End release.

(** ** Reservation *)

Section reservation.
Implicit Types (ps : gmap string Product) (en : list Enriched).

Lemma reserve_ops_cons it en ps :
  reserve_ops (it :: en) ps
  = let u := updateOne (e_product it).1
               (λ p, bool_decide (e_quantity it ≤ stock p))
               (- e_quantity it) ps in
    let rest := reserve_ops en u.1 in
    (rest.1, u.2 :: rest.2).
Proof.
  simpl. destruct (updateOne _ _ _ ps) as [ps1 r]. simpl.
  by destruct (reserve_ops en ps1).
Qed.


(** After the updates, every product holds its former stock minus the
    quantities of the decrements on it that matched; nothing else of
    the collection changes. *)
Lemma reserve_ops_lookup en ps id :
  (reserve_ops en ps).1 !! id
  = (λ p, set_stock
            (stock p - quantity_of id (granted en (reserve_ops en ps).2)) p)
      <$> ps !! id.
Proof.
  revert ps. induction en as [|it en IH]; intros ps.
  - simpl. destruct (ps !! id) as [p|]; simpl; [|done].
    f_equal. symmetry. apply set_stock_same. lia.
  - rewrite reserve_ops_cons. cbn zeta. simpl fst. simpl snd.
    set (k := (e_product it).1). set (q := e_quantity it).
    set (cond := λ p : Product, bool_decide (q ≤ stock p)).
    rewrite IH. cbn [granted].
    destruct (decide (matchedCount (updateOne k cond (- q) ps).2 = 0))
      as [Hz|Hnz].
    + by rewrite (updateOne_unmatched _ _ _ _ Hz).
    + apply updateOne_matched in Hnz as (p & Hp & Hc).
      rewrite (updateOne_hit _ _ _ _ _ Hp Hc). cbn [fst snd].
      rewrite quantity_of_cons. fold k q.
      destruct (decide (k = id)) as [Heq|Hne].
      * rewrite <- Heq, lookup_insert_eq, Hp. simpl. f_equal.
        unfold set_stock; simpl. f_equal. lia.
      * rewrite lookup_insert_ne by done.
        destruct (ps !! id); simpl; [|done]. do 2 f_equal; lia.
Qed.

(** When the loop over the results finds no failure, every item was
    granted. *)
Lemma check_results_Ok en ps :
  check_results en (reserve_ops en ps).2 = Ok () →
  granted en (reserve_ops en ps).2 = enriched_pairs en.
Proof.
  revert ps. induction en as [|it en IH]; intros ps; [done|].
  rewrite reserve_ops_cons. cbn zeta. simpl snd. cbn [check_results granted].
  pose proof (updateOne_failed_iff (e_product it).1
    (λ p, bool_decide (e_quantity it ≤ stock p)) (- e_quantity it) ps) as Hf.
  cbn zeta in Hf.
  destruct (decide (_ ∧ _)) as [Hbad|Hgood]; [done|].
  intros Hrest. destruct (decide (matchedCount _ = 0)) as [Hz|_].
  - by apply Hf in Hz.
  - simpl. f_equal. by apply IH.
Qed.

(** When it finds one, the product named is that of the first item whose
    decrement matched nothing. *)
Lemma check_results_Throw en ps e :
  check_results en (reserve_ops en ps).2 = Throw e →
  ∃ (i : nat) it r,
    en !! i = Some it ∧ (reserve_ops en ps).2 !! i = Some r ∧
    matchedCount r = 0 ∧
    (∀ (j : nat) r', (j < i)%nat → (reserve_ops en ps).2 !! j = Some r' →
                     matchedCount r' ≠ 0) ∧
    e = Thrown 500 ("Failed to reserve stock for product "
                      +:+ (e_product it).1).
Proof.
  revert ps. induction en as [|it en IH]; intros ps; [done|].
  rewrite reserve_ops_cons. cbn zeta. simpl snd. cbn [check_results].
  pose proof (updateOne_failed_iff (e_product it).1
    (λ p, bool_decide (e_quantity it ≤ stock p)) (- e_quantity it) ps) as Hf.
  cbn zeta in Hf.
  destruct (decide (_ ∧ _)) as [Hbad|Hgood].
  - intros [= <-]. exists 0%nat, it, (updateOne (e_product it).1
      (λ p, bool_decide (e_quantity it ≤ stock p)) (- e_quantity it) ps).2.
    repeat split; [tauto | lia].
  - intros (i & it' & r & Hi & Hr & Hz & Hbefore & ->)%IH.
    exists (S i), it', r. repeat split; try done.
    intros [|j] r' Hj; simpl.
    + intros [= <-]. tauto.
    + apply Hbefore. lia.
Qed.

(** The guard of the decrement keeps every counter non-negative. *)
Lemma updateOne_reserve_nonneg id q ps :
  stock_nonneg ps →
  stock_nonneg (updateOne id (λ p, bool_decide (q ≤ stock p)) (- q) ps).1.
Proof.
  intros Hps. unfold updateOne.
  destruct (ps !! id) as [p|] eqn:Hp; [|done].
  case_bool_decide; [|done]. simpl.
  apply map_Forall_insert_2; [simpl; lia | done].
Qed.

Lemma reserve_ops_nonneg en ps :
  stock_nonneg ps → stock_nonneg (reserve_ops en ps).1.
Proof.
  revert ps. induction en as [|it en IH]; intros ps Hps; [done|].
  rewrite reserve_ops_cons. cbn zeta. simpl fst.
  by apply IH, updateOne_reserve_nonneg.
Qed.

Lemma reduceStock_unfold en ps :
  reduceStock en ps
  = ((reserve_ops en ps).1, check_results en (reserve_ops en ps).2).
Proof. unfold reduceStock. by destruct (reserve_ops en ps). Qed.
End reservation.

(** ** Number arithmetic *)

Section numbers.
Implicit Types (z : Z) (its : list OrderItem).

(** Up to [2 ^ 53] in magnitude the arithmetic is exact. *)
Lemma round_double_exact z : Z.abs z ≤ 2 ^ 53 → round_double z = z.
Proof. intros Hz. unfold round_double. by rewrite decide_True. Qed.

Lemma round_double_nonneg z : 0 ≤ z → 0 ≤ round_double z.
Proof.
  intros Hz. unfold round_double. case_decide; [done|].
  assert (0 < z) as Hpos by lia.
  rewrite Z.sgn_pos, Z.abs_eq by lia.
  set (ulp := 2 ^ (Z.log2 z - 52)).
  assert (0 < ulp) as Hulp.
  { apply Z.pow_pos_nonneg; [lia|].
    assert (53 ≤ Z.log2 z); [|lia].
    apply Z.log2_le_pow2; lia. }
  assert (0 ≤ z / ulp) by (apply Z.div_pos; lia).
  repeat case_match; nia.
Qed.

Lemma js_total_from_nonneg its t0 :
  0 ≤ t0 →
  Forall (λ it, 0 ≤ quantity it ∧ 0 ≤ priceAtPurchase it) its →
  0 ≤ js_total_from t0 its.
Proof.
  intros Ht0 Hits. revert t0 Ht0.
  induction Hits as [|it its [Hq Hp] _ IH]; intros t0 Ht0; [done|].
  cbn [js_total_from foldl]. apply IH. unfold js_add, js_mul.
  apply round_double_nonneg.
  assert (0 ≤ round_double (priceAtPurchase it * quantity it))
    by (apply round_double_nonneg; nia).
  lia.
Qed.

Lemma items_total_nonneg its :
  Forall (λ it, 0 ≤ quantity it ∧ 0 ≤ priceAtPurchase it) its →
  0 ≤ items_total its.
Proof.
  induction 1 as [|it its [Hq Hp] _ IH]; simpl; [done|].
  fold (items_total its). nia.
Qed.

(** While the exact sum stays within [2 ^ 53], the total accumulated by
    line 84 is the exact sum. *)
Lemma js_total_from_exact its t0 :
  0 ≤ t0 →
  Forall (λ it, 0 ≤ quantity it ∧ 0 ≤ priceAtPurchase it) its →
  t0 + items_total its ≤ 2 ^ 53 →
  js_total_from t0 its = t0 + items_total its.
Proof.
  intros Ht0 Hits. revert t0 Ht0.
  induction Hits as [|it its [Hq Hp] Hrest IH]; intros t0 Ht0 Hle.
  - simpl. lia.
  - cbn [js_total_from foldl]. simpl in Hle. fold (items_total its) in Hle.
    pose proof (items_total_nonneg its Hrest) as Hnn.
    assert (0 ≤ priceAtPurchase it * quantity it) as Hprod by nia.
    unfold js_add, js_mul.
    rewrite (round_double_exact (priceAtPurchase it * quantity it)) by lia.
    rewrite round_double_exact by lia.
    fold (js_total_from (t0 + priceAtPurchase it * quantity it) its).
    rewrite IH by lia. simpl. fold (items_total its). lia.
Qed.

Lemma js_total_exact its :
  Forall (λ it, 0 ≤ quantity it ∧ 0 ≤ priceAtPurchase it) its →
  items_total its ≤ 2 ^ 53 →
  js_total its = items_total its.
Proof.
  intros Hits Hle. unfold js_total.
  rewrite js_total_from_exact by (done || lia). lia.
Qed.
End numbers.

(** ** Validation *)

Section validation.
Implicit Types (ps : gmap string Product) (its : list Item).

Lemma Product_find_in_elem ids ps d :
  d ∈ Product_find_in ids ps ↔ d.1 ∈ ids ∧ ps !! d.1 = Some d.2.
Proof.
  unfold Product_find_in. rewrite list_elem_of_filter.
  destruct d as [k p]. by rewrite elem_of_map_to_list.
Qed.

Lemma Product_find_in_NoDup ids ps :
  NoDup (Product_find_in ids ps).*1.
Proof.
  unfold Product_find_in.
  eapply sublist_NoDup; [apply (NoDup_fst_map_to_list ps)|].
  apply fmap_sublist, sublist_filter.
Qed.

(** The documents found are distinct, so they can be as many as the
    requested identifiers only if no identifier is requested twice. *)
Lemma Product_find_in_length ids ps :
  length (Product_find_in ids ps) = length ids → NoDup ids.
Proof.
  intros Hlen.
  assert ((Product_find_in ids ps).*1 ⊆+ ids) as Hsub.
  { apply NoDup_submseteq; [apply Product_find_in_NoDup|].
    intros k (d & -> & Hd)%list_elem_of_fmap.
    by apply Product_find_in_elem in Hd as [? _]. }
  apply submseteq_length_Permutation in Hsub.
  - rewrite <- Hsub. apply Product_find_in_NoDup.
  - rewrite length_fmap. lia.
Qed.

Lemma find_found ids ps k d :
  List.find (λ pp, bool_decide (pp.1 = k)) (Product_find_in ids ps) = Some d →
  d.1 = k ∧ ps !! k = Some d.2.
Proof.
  intros [Hin Hk]%find_some.
  apply bool_decide_eq_true in Hk as <-.
  apply list_elem_of_In, Product_find_in_elem in Hin. tauto.
Qed.

(** A successful validation enriches every item from the collection
    read and returns the sum of price times quantity as line 84
    accumulates it. *)
Lemma enrich_spec ids ps its t0 t en :
  enrich (Product_find_in ids ps) its t0 = Ok (t, en) →
  Forall2 (enriched_from ps) its en ∧
  t = js_total_from t0 (orderItems en).
Proof.
  revert t0 t en. induction its as [|item its IH]; intros t0 t en; simpl.
  - intros [= <- <-]. split; [constructor | done].
  - destruct (List.find _ _) as [d|] eqn:Hfind; [|done].
    apply find_found in Hfind as [Hk Hd].
    destruct (decide (stock d.2 < i_quantity item)); [done|].
    destruct (enrich _ its _) as [[t' en']|] eqn:Hrest; [|done].
    simpl. intros [= <- <-].
    apply IH in Hrest as [Hall ->]. split.
    + constructor; [|done]. exists d.2. repeat split; [done | lia |].
      destruct d as [k p]; simpl in *. by subst.
    + done.
Qed.

Lemma calculateTotalAndCheckStock_spec its ps t en :
  calculateTotalAndCheckStock its ps = Ok (t, en) →
  Forall2 (enriched_from ps) its en ∧ t = js_total (orderItems en).
Proof.
  unfold calculateTotalAndCheckStock. case_decide; [done|].
  intros [? ->]%enrich_spec. by split.
Qed.

Lemma calculateTotalAndCheckStock_duplicate its ps :
  ¬ NoDup (productId <$> its) →
  calculateTotalAndCheckStock its ps
  = Throw (Thrown 400 "One or more products not found").
Proof.
  intros Hdup. unfold calculateTotalAndCheckStock.
  case_decide as Hlen; [done|].
  destruct Hdup. apply (Product_find_in_length _ ps).
  by destruct (decide (length (Product_find_in (productId <$> its) ps)
                       = length (productId <$> its))).
Qed.
End validation.

(** ** Validation followed at once by reservation *)

Section sequential.
Implicit Types (ps : gmap string Product) (en : list Enriched).

(** Decrements on distinct products, each within the stock of its
    product, all match. *)
Lemma reserve_ops_all_matched en ps :
  NoDup (enriched_pairs en).*1 →
  Forall (λ e, ∃ p, ps !! (e_product e).1 = Some p ∧ e_quantity e ≤ stock p)
    en →
  check_results en (reserve_ops en ps).2 = Ok ().
Proof.
  revert ps. induction en as [|it en IH]; intros ps Hnd Hall; [done|].
  apply Forall_cons in Hall as [(p & Hp & Hq) Hall].
  simpl in Hnd. apply NoDup_cons in Hnd as [Hnotin Hnd].
  rewrite reserve_ops_cons. cbn zeta.
  rewrite (updateOne_hit _ _ _ _ p Hp) by (by apply bool_decide_eq_true_2).
  simpl fst. simpl snd. cbn [check_results].
  rewrite decide_False by (simpl; lia).
  apply IH; [done|].
  apply Forall_forall. intros e He.
  rewrite Forall_forall in Hall. destruct (Hall e He) as (p' & Hp' & Hq').
  exists p'. split; [|done]. rewrite lookup_insert_ne; [done|].
  intros Heq. apply Hnotin. rewrite Heq.
  apply list_elem_of_fmap. exists ((e_product e).1, e_quantity e).
  split; [done|]. apply list_elem_of_fmap. by exists e.
Qed.

Lemma enriched_from_ids ps its en :
  Forall2 (enriched_from ps) its en →
  (enriched_pairs en).*1 = productId <$> its ∧
  Forall (λ e, ∃ p, ps !! (e_product e).1 = Some p ∧ e_quantity e ≤ stock p)
    en.
Proof.
  induction 1 as [|item e its en (p & Hp & Hq & ->) _ [IHids IHall]].
  - by split.
  - unfold enriched_pairs in *. split; [csimpl; by f_equal|].
    constructor; [|done]. by exists p.
Qed.

(** When no other request runs between the two, a reservation that
    follows a successful validation succeeds. *)
Lemma validated_reservation_succeeds its ps total en :
  calculateTotalAndCheckStock its ps = Ok (total, en) →
  reduceStock en ps = ((reserve_ops en ps).1, Ok ()).
Proof.
  intros Hcalc. rewrite reduceStock_unfold. f_equal.
  pose proof (calculateTotalAndCheckStock_spec _ _ _ _ Hcalc) as [Hen _].
  apply enriched_from_ids in Hen as [Hids Hall].
  apply reserve_ops_all_matched; [|done]. rewrite Hids.
  unfold calculateTotalAndCheckStock in Hcalc. case_decide as Hlen; [done|].
  apply (Product_find_in_length _ ps).
  by destruct (decide (length (Product_find_in (productId <$> its) ps)
                       = length (productId <$> its))).
Qed.
End sequential.

(** ** Invariants of the server *)

Section invariants.
Implicit Types (db : Db) (o : Order).

Lemma Order_valid_quantities o :
  Order_valid o = true →
  Forall (λ it, 0 ≤ it.2) (order_items_to_restore o).
Proof.
  unfold Order_valid, order_items_to_restore.
  intros [Hall _]%andb_prop. apply Forall_fmap.
  induction (items o) as [|it l IH]; [constructor|].
  simpl in Hall. apply andb_prop in Hall as [Hit Hl].
  constructor; [|by apply IH].
  unfold OrderItem_valid in Hit. apply andb_prop in Hit as [Hq _].
  apply bool_decide_eq_true in Hq. simpl. lia.
Qed.

Lemma restoreStock_nonneg its ps :
  stock_nonneg ps → Forall (λ it : string * Z, 0 ≤ it.2) its →
  stock_nonneg (restoreStock its ps).
Proof.
  intros Hps Hits id p. rewrite restoreStock_lookup.
  destruct (ps !! id) as [p0|] eqn:Hp0; simpl; [|done].
  intros [= <-]. simpl. specialize (Hps id p0 Hp0). simpl in Hps.
  pose proof (quantity_of_nonneg id its Hits). lia.
Qed.

Lemma Inv_set_order db ps id o o' :
  Inv db → stock_nonneg ps → orders db !! id = Some o →
  items o' = items o → totalAmount o' = totalAmount o →
  Inv {| products := ps; orders := <[id := o']> (orders db) |}.
Proof.
  intros [_ Hos] Hps Ho Hitems Htotal. split; [done|]. simpl.
  apply map_Forall_insert_2; [|done].
  destruct (Hos id o Ho) as [Hv Ht]. split.
  - unfold Order_valid in *. by rewrite Hitems, Htotal.
  - unfold total_ok in *. by rewrite Hitems, Htotal.
Qed.

Lemma post_products_Inv c b db : Inv db → Inv (post_products c b db).1.
Proof.
  intros [Hps Hos]. unfold post_products.
  destruct (new_Product b) as [p|] eqn:Hnew; [|done].
  destruct (products db !! new_id c); [done|]. simpl.
  split; [|done]. simpl. apply map_Forall_insert_2; [|done].
  unfold new_Product in Hnew.
  destruct (b_name b), (b_price b); try done.
  destruct (_ && _) eqn:Hok; [|done].
  injection Hnew as <-. simpl.
  apply andb_prop in Hok as [_ Hst]. by apply bool_decide_eq_true in Hst.
Qed.

Lemma post_seed_Inv ids db : Inv db → Inv (post_seed ids db).1.
Proof.
  intros [_ Hos]. split; [|done]. simpl.
  intros id p Hp%elem_of_list_to_map_2%elem_of_zip_r.
  unfold sample in Hp. set_unfold in Hp.
  destruct Hp as [-> | [-> | [-> | [-> | [-> | []]]]]]; simpl; lia.
Qed.

Lemma post_orders_commit_Inv c b db0 total en db :
  post_orders_validate b db0 = inr (total, en) →
  Inv db → Inv (post_orders_commit c b total en db).1.
Proof.
  intros Hval [Hps Hos]. unfold post_orders_commit.
  rewrite reduceStock_unfold.
  pose proof (reserve_ops_nonneg en _ Hps) as Hps'.
  destruct (check_results _ _); [|done].
  unfold Order_save_new.
  destruct (Order_valid _) eqn:Hvalid; [|done].
  destruct (orders db !! new_id c) eqn:Hfresh; [done|]. simpl.
  split; [done|]. simpl. apply map_Forall_insert_2; [|done].
  split; [done|]. unfold total_ok. simpl.
  unfold post_orders_validate in Hval. case_decide; [done|].
  destruct (calculateTotalAndCheckStock _ _) as [r|] eqn:Hcalc; [|done].
  injection Hval as ->.
  by apply calculateTotalAndCheckStock_spec in Hcalc as [_ ->].
Qed.

Lemma post_orders_Inv c b db : Inv db → Inv (post_orders c b db).1.
Proof.
  intros HI. unfold post_orders.
  destruct (post_orders_validate b db) as [reply|[total en]] eqn:Hval;
    [done|]. by eapply post_orders_commit_Inv.
Qed.

Lemma put_orders_Inv c id b db : Inv db → Inv (put_orders c id b db).1.
Proof.
  intros HI. pose proof HI as [Hps Hos]. unfold put_orders.
  destruct (orders db !! id) as [o|] eqn:Ho; [|done].
  destruct (Hos id o Ho) as [Hv _].
  repeat case_match; try done; simpl;
    eapply Inv_set_order; eauto using restoreStock_nonneg,
      Order_valid_quantities.
Qed.

Lemma delete_orders_Inv c id db : Inv db → Inv (delete_orders c id db).1.
Proof.
  intros HI. pose proof HI as [Hps Hos]. unfold delete_orders.
  destruct (orders db !! id) as [o|] eqn:Ho; [|done].
  destruct (Hos id o Ho) as [Hv _].
  case_match; [done|]. simpl.
  eapply Inv_set_order; eauto using restoreStock_nonneg,
    Order_valid_quantities; by case_decide.
Qed.

Lemma step_Inv db db' : step db db' → Inv db → Inv db'.
Proof.
  destruct 1 as [[c b|c b|c id b|c id|ids] db|c b db0 total en db Hval];
    unfold handle.
  - apply post_products_Inv.
  - apply post_orders_Inv.
  - apply put_orders_Inv.
  - apply delete_orders_Inv.
  - apply post_seed_Inv.
  - by apply post_orders_commit_Inv with db0.
Qed.

Lemma steps_Inv db db' : Inv db → rtc step db db' → Inv db'.
Proof.
  intros HI Hsteps. revert db' Hsteps. apply rtc_ind_r; [done|].
  intros db1 db2 _ Hs IH. by eapply step_Inv.
Qed.

Lemma reachable_Inv db : reachable db → Inv db.
Proof.
  apply steps_Inv. split; simpl; apply map_Forall_empty.
Qed.

(** No step removes an order or touches its items or its total. *)
Lemma set_order_same_purchase (os : gmap string Order) id o o' k o0 :
  os !! id = Some o → same_purchase o o' → os !! k = Some o0 →
  ∃ o1, <[id := o']> os !! k = Some o1 ∧ same_purchase o0 o1.
Proof.
  intros Ho Hsame Hk. destruct (decide (id = k)) as [->|Hne].
  - rewrite lookup_insert_eq. exists o'. split; [done|]. congruence.
  - rewrite lookup_insert_ne by done. exists o0. by split.
Qed.

Lemma post_orders_commit_same_purchase c b total en db k o0 :
  orders db !! k = Some o0 →
  ∃ o1, orders (post_orders_commit c b total en db).1 !! k = Some o1 ∧
        same_purchase o0 o1.
Proof.
  intros Hk. unfold post_orders_commit. rewrite reduceStock_unfold.
  destruct (check_results _ _); [|by exists o0].
  unfold Order_save_new. destruct (Order_valid _); [|by exists o0].
  destruct (orders db !! new_id c) eqn:Hfresh; [by exists o0|]. simpl.
  exists o0. split; [|done]. rewrite lookup_insert_ne; [done|congruence].
Qed.

Lemma step_same_purchase db db' k o0 :
  step db db' → orders db !! k = Some o0 →
  ∃ o1, orders db' !! k = Some o1 ∧ same_purchase o0 o1.
Proof.
  destruct 1 as [[c b|c b|c id b|c id|ids] db|c b db0 total en db Hval];
    unfold handle; intros Hk.
  - unfold post_products. repeat case_match; by exists o0.
  - unfold post_orders. destruct (post_orders_validate b db) as [?|[t e]];
      [by exists o0|]. by apply post_orders_commit_same_purchase.
  - unfold put_orders. destruct (orders db !! id) as [o|] eqn:Ho;
      [|by exists o0].
    repeat case_match; try (by exists o0); simpl;
      by eapply set_order_same_purchase.
  - unfold delete_orders. destruct (orders db !! id) as [o|] eqn:Ho;
      [|by exists o0].
    case_match; [by exists o0|]. simpl.
    eapply set_order_same_purchase; [done | | done].
    by case_decide.
  - by exists o0.
  - by apply post_orders_commit_same_purchase.
Qed.
End invariants.

(** ** Failure of an order creation *)

(** C1, as the specification states it, fails.  The first order is
    validated while the pen is in stock; the second order takes the pen;
    the first order's reservation then decrements the mugs, fails on the
    pen, and returns with the mugs still decremented. *)
Lemma reserve_failure_leaves_decrements :
  post_orders_validate Shop.first Shop.open_shop
    = inr (230, Shop.first_enriched) ∧
  let db1 := (post_orders Shop.c2 Shop.second Shop.open_shop).1 in
  let res := post_orders_commit Shop.c1 Shop.first 230 Shop.first_enriched db1 in
  res.2 = Next (Thrown 500 "Failed to reserve stock for product B") ∧
  stock_of (products db1) "A" = Some 5 ∧
  stock_of (products res.1) "A" = Some 3 ∧
  products res.1 ≠ products db1.
Proof.
  split; [by vm_compute|]. cbn zeta.
  split; [by vm_compute|]. split; [by vm_compute|].
  assert (stock_of (products (post_orders_commit Shop.c1 Shop.first 230
            Shop.first_enriched
            (post_orders Shop.c2 Shop.second Shop.open_shop).1).1) "A"
          = Some 3) as H3 by (by vm_compute).
  split; [done|]. intros Heq. rewrite Heq in H3. by vm_compute in H3.
Qed.

(** C1 (amended).  A creation that stops at the guard or at validation
    leaves the database as it was.  When a decrement of the reservation
    fails, the handler forwards the error, which names the product of the
    first item whose decrement matched nothing; no order is stored; and
    nothing is re-incremented: every product is left with its former stock
    minus the quantities of the decrements on it that matched.  Whatever
    the failure, the orders are those of before. *)
Theorem createOrder_failure c b db :
  (∀ reply, post_orders_validate b db = inl reply →
            post_orders c b db = (db, reply)) ∧
  (∀ total en e,
     (reduceStock en (products db)).2 = Throw e →
     let res := reserve_ops en (products db) in
     post_orders_commit c b total en db = (with_products res.1 db, Next e) ∧
     (∃ (i : nat) it r,
        en !! i = Some it ∧ res.2 !! i = Some r ∧ matchedCount r = 0 ∧
        (∀ (j : nat) r', (j < i)%nat → res.2 !! j = Some r' →
                         matchedCount r' ≠ 0) ∧
        e = Thrown 500 ("Failed to reserve stock for product "
                          +:+ (e_product it).1)) ∧
     (∀ id, stock_of res.1 id
            = (λ s, s - quantity_of id (granted en res.2))
                <$> stock_of (products db) id)) ∧
  (∀ total en,
     http_status (post_orders_commit c b total en db).2 ≠ 201 →
     orders (post_orders_commit c b total en db).1 = orders db).
Proof.
  split; [|split].
  - intros reply Hval. unfold post_orders. by rewrite Hval.
  - intros total en e. rewrite reduceStock_unfold. simpl. intros Hcheck.
    split; [|split].
    + unfold post_orders_commit. rewrite reduceStock_unfold. by rewrite Hcheck.
    + by apply check_results_Throw.
    + intros id. unfold stock_of. rewrite reserve_ops_lookup.
      by destruct (products db !! id).
  - intros total en. unfold post_orders_commit. rewrite reduceStock_unfold.
    destruct (check_results _ _); [|done].
    destruct (Order_save_new _ _ _); [|done]. simpl. lia.
Qed.

Lemma createOrder_failure_witness :
  let db1 := (post_orders Shop.c2 Shop.second Shop.open_shop).1 in
  post_orders_commit Shop.c1 Shop.first 230 Shop.first_enriched db1
  = (with_products (reserve_ops Shop.first_enriched (products db1)).1 db1,
     Next (Thrown 500 "Failed to reserve stock for product B")).
Proof.
  cbn zeta.
  apply (proj1 (proj2 (createOrder_failure Shop.c1 Shop.first
           (post_orders Shop.c2 Shop.second Shop.open_shop).1))
         230 Shop.first_enriched).
  vm_compute. reflexivity.
Defined.

(** ** Cancellation *)

Section cancellation.
Implicit Types (db : Db) (o : Order) (b : UpdateBody).

Lemma ordered_quantity_restore k o :
  quantity_of k (order_items_to_restore o) = ordered_quantity k (items o).
Proof.
  unfold order_items_to_restore.
  induction (items o) as [|it its IH]; [done|].
  rewrite fmap_cons, quantity_of_cons, IH.
  unfold ordered_quantity. simpl.
  destruct (decide (product it = k)); lia.
Qed.

(** What releasing the items of an order does to each product. *)
Lemma restoreStock_order o (ps : gmap string Product) k :
  restoreStock (order_items_to_restore o) ps !! k
  = (λ p, set_stock (stock p + ordered_quantity k (items o)) p) <$> ps !! k.
Proof. by rewrite restoreStock_lookup, ordered_quantity_restore. Qed.

Lemma put_cancel_not_shipped c id b db o :
  orders db !! id = Some o → shipped_or_later (status o) = false →
  b_status b = Some "cancelled" →
  put_orders c id b db
  = (cancelled_db (date_now c) id o db,
     Json 200 (order_status_ok id cancelled)).
Proof.
  intros Ho Hst Hb. unfold put_orders. rewrite Ho.
  rewrite decide_True by done. by rewrite Hst.
Qed.

Lemma delete_not_shipped c id db o :
  orders db !! id = Some o → shipped_or_later (status o) = false →
  delete_orders c id db
  = ({| products := restoreStock (order_items_to_restore o) (products db);
        orders := <[id := if decide (status o = cancelled) then o
                          else set_status cancelled (doc_now c) o]>
                    (orders db) |},
     Json 200 (order_status_ok id cancelled)).
Proof.
  intros Ho Hst. unfold delete_orders. by rewrite Ho, Hst.
Qed.
End cancellation.

(** C2, as the specification states it, fails.  The order of two mugs is
    already cancelled; cancelling it again, by either route, answers 200
    and raises the stock of mugs from 5 to 7. *)
Lemma double_cancel_releases_again :
  let db := Shop.shop_with cancelled in
  let by_put := put_orders Shop.c2 "o1" Shop.cancel db in
  let by_delete := delete_orders Shop.c2 "o1" db in
  stock_of (products db) "A" = Some 5 ∧
  by_put.2 = Json 200 (order_status_ok "o1" cancelled) ∧
  stock_of (products by_put.1) "A" = Some 7 ∧
  by_delete.2 = Json 200 (order_status_ok "o1" cancelled) ∧
  stock_of (products by_delete.1) "A" = Some 7.
Proof. cbn zeta. repeat split; by vm_compute. Qed.

(** C2 (amended).  A second cancellation of a cancelled order is not
    rejected: by either route it answers 200 with status [cancelled] and
    the order stays cancelled, with the items and the total it had; the
    [DELETE] route writes nothing to the orders.  Every product that
    exists has its stock raised once more by the quantity that the
    order's items hold of it, and no product is created. *)
Theorem second_cancel c id b db o :
  orders db !! id = Some o → status o = cancelled →
  b_status b = Some "cancelled" →
  let by_put := put_orders c id b db in
  let by_delete := delete_orders c id db in
  by_put.2 = Json 200 (order_status_ok id cancelled) ∧
  by_delete.2 = Json 200 (order_status_ok id cancelled) ∧
  (∃ o', orders by_put.1 !! id = Some o' ∧ status o' = cancelled ∧
         same_purchase o o') ∧
  orders by_delete.1 = orders db ∧
  (∀ k, products by_put.1 !! k
        = (λ p, set_stock (stock p + ordered_quantity k (items o)) p)
            <$> products db !! k) ∧
  (∀ k, products by_delete.1 !! k
        = (λ p, set_stock (stock p + ordered_quantity k (items o)) p)
            <$> products db !! k).
Proof.
  intros Ho Hst Hb. cbn zeta.
  assert (shipped_or_later (status o) = false) as Hns by (by rewrite Hst).
  rewrite (put_cancel_not_shipped c id b db o Ho Hns Hb).
  rewrite (delete_not_shipped c id db o Ho Hns).
  rewrite decide_True by done. unfold cancelled_db.
  cbn [fst snd products orders].
  split; [done|]. split; [done|]. split; [|split; [|split]].
  - rewrite lookup_insert_eq. eexists. by repeat split.
  - by apply insert_id.
  - intros k. apply restoreStock_order.
  - intros k. apply restoreStock_order.
Qed.

Lemma second_cancel_witness :
  let db := Shop.shop_with cancelled in
  (put_orders Shop.c2 "o1" Shop.cancel db).2
  = Json 200 (order_status_ok "o1" cancelled) ∧
  (delete_orders Shop.c2 "o1" db).2
  = Json 200 (order_status_ok "o1" cancelled) ∧
  (∃ o', orders (put_orders Shop.c2 "o1" Shop.cancel db).1 !! "o1" = Some o' ∧
         status o' = cancelled ∧ same_purchase (Shop.two_mugs cancelled) o') ∧
  orders (delete_orders Shop.c2 "o1" db).1 = orders db ∧
  (∀ k, products (put_orders Shop.c2 "o1" Shop.cancel db).1 !! k
        = (λ p, set_stock
                  (stock p
                   + ordered_quantity k (items (Shop.two_mugs cancelled))) p)
            <$> products db !! k) ∧
  (∀ k, products (delete_orders Shop.c2 "o1" db).1 !! k
        = (λ p, set_stock
                  (stock p
                   + ordered_quantity k (items (Shop.two_mugs cancelled))) p)
            <$> products db !! k).
Proof.
  apply (second_cancel Shop.c2 "o1" Shop.cancel (Shop.shop_with cancelled)
           (Shop.two_mugs cancelled)); reflexivity.
Defined.

(** C7.  Cancelling an order that is shipped, out for delivery or
    delivered is refused with status 400, by the [PUT] route and by the
    [DELETE] route; the database, hence the order's status and every
    product's stock, is unchanged. *)
Theorem cancel_after_shipping_refused c id b db o :
  orders db !! id = Some o →
  status o = shipped ∨ status o = out_for_delivery ∨ status o = delivered →
  b_status b = Some "cancelled" →
  put_orders c id b db
    = (db, Json 400 (error_json
             "Cannot cancel an order already shipped or delivered")) ∧
  delete_orders c id db
    = (db, Json 400 (error_json
             "Cannot delete an order already shipped/delivered")).
Proof.
  intros Ho Hst Hb.
  assert (shipped_or_later (status o) = true) as Hs
    by (destruct Hst as [-> | [-> | ->]]; reflexivity).
  unfold put_orders, delete_orders. rewrite Ho, Hs.
  by rewrite decide_True.
Qed.

Lemma cancel_after_shipping_refused_witness :
  put_orders Shop.c2 "o1" Shop.cancel (Shop.shop_with shipped)
    = (Shop.shop_with shipped,
       Json 400 (error_json
         "Cannot cancel an order already shipped or delivered")) ∧
  delete_orders Shop.c2 "o1" (Shop.shop_with shipped)
    = (Shop.shop_with shipped,
       Json 400 (error_json
         "Cannot delete an order already shipped/delivered")).
Proof.
  apply (cancel_after_shipping_refused Shop.c2 "o1" Shop.cancel
           (Shop.shop_with shipped) (Shop.two_mugs shipped)).
  - reflexivity.
  - left. reflexivity.
  - reflexivity.
Defined.

(** C9.  Release cannot fail: [restoreStock] returns for every list of
    items and every collection, adds to each product that exists the
    quantities held for it with no floor on the result, and skips the
    products that do not exist without creating them.  A cancellation of
    an order that is not shipped therefore always answers 200 and leaves
    the order stored as [cancelled], whether or not its products still
    exist: every product that exists gets the quantity that the order's
    items hold of it, and nothing happens for the others. *)
Theorem release_never_fails c id b db o :
  orders db !! id = Some o → shipped_or_later (status o) = false →
  b_status b = Some "cancelled" →
  let by_put := put_orders c id b db in
  let by_delete := delete_orders c id db in
  by_put.2 = Json 200 (order_status_ok id cancelled) ∧
  by_delete.2 = Json 200 (order_status_ok id cancelled) ∧
  (status <$> orders by_put.1 !! id) = Some cancelled ∧
  (status <$> orders by_delete.1 !! id) = Some cancelled ∧
  (∀ k, products by_put.1 !! k
        = (λ p, set_stock (stock p + ordered_quantity k (items o)) p)
            <$> products db !! k) ∧
  (∀ k, products by_delete.1 !! k
        = (λ p, set_stock (stock p + ordered_quantity k (items o)) p)
            <$> products db !! k) ∧
  (∀ its ps k,
     stock_of (restoreStock its ps) k
     = (λ s, s + quantity_of k its) <$> stock_of ps k) ∧
  (∀ its ps k, ps !! k = None → restoreStock its ps !! k = None).
Proof.
  intros Ho Hns Hb. cbn zeta.
  rewrite (put_cancel_not_shipped c id b db o Ho Hns Hb).
  rewrite (delete_not_shipped c id db o Ho Hns).
  unfold cancelled_db. cbn [fst snd products orders].
  rewrite !lookup_insert_eq.
  split; [done|]. split; [done|]. split; [done|].
  split; [case_decide; simpl; congruence|].
  split; [intros k; apply restoreStock_order|].
  split; [intros k; apply restoreStock_order|].
  split.
  - intros its ps k. apply restoreStock_stock_of.
  - intros its ps k Hk. by rewrite restoreStock_lookup, Hk.
Qed.

(** The witness cancels an order whose product is no longer in the
    catalogue. *)
Lemma release_never_fails_witness :
  let db := Shop.shop_without_mug in
  products db !! "A" = None ∧
  (put_orders Shop.c2 "o1" Shop.cancel db).2
  = Json 200 (order_status_ok "o1" cancelled) ∧
  (delete_orders Shop.c2 "o1" db).2
  = Json 200 (order_status_ok "o1" cancelled) ∧
  (status <$> orders (put_orders Shop.c2 "o1" Shop.cancel db).1 !! "o1")
  = Some cancelled ∧
  (status <$> orders (delete_orders Shop.c2 "o1" db).1 !! "o1")
  = Some cancelled.
Proof.
  cbn zeta. split; [reflexivity|].
  destruct (release_never_fails Shop.c2 "o1" Shop.cancel
              Shop.shop_without_mug (Shop.two_mugs confirmed))
    as (H1 & H2 & H3 & H4 & _); [reflexivity | reflexivity | reflexivity |].
  exact (conj H1 (conj H2 (conj H3 H4))).
Defined.

(** ** The generic status update *)

Lemma Status_of_to_string st : Status_of_string (Status_to_string st) = Some st.
Proof. by destruct st. Qed.

Lemma Status_to_string_cancelled st :
  Status_to_string st = "cancelled" → st = cancelled.
Proof. by destruct st. Qed.

(** C8, as the specification states it, fails for the status value
    [cancelled]: the request is served by the cancel branch, which refuses
    it for a shipped order and leaves the order as it was. *)
Lemma setStatus_cancelled_is_guarded :
  put_orders Shop.c2 "o1" (Shop.set_to cancelled) (Shop.shop_with shipped)
  = (Shop.shop_with shipped,
     Json 400 (error_json
       "Cannot cancel an order already shipped or delivered")).
Proof. reflexivity. Qed.

(** C8 (amended).  For every existing order and every status value other
    than [cancelled], a status update that carries no shipping address is
    applied as it is: whatever the order's current status, the reply is 200
    and the order is stored with the new status. *)
Theorem setStatus_unconditioned c id b db o st :
  orders db !! id = Some o →
  b_status b = Some (Status_to_string st) → st ≠ cancelled →
  truthy (b_shipping_address b) = false →
  put_orders c id b db
  = ({| products := products db;
        orders := <[id := set_status st (date_now c) o]> (orders db) |},
     Json 200 (order_status_ok id st)).
Proof.
  intros Ho Hb Hst Haddr. unfold put_orders. rewrite Ho, Hb, Haddr.
  rewrite decide_False.
  - assert (truthy (Some (Status_to_string st)) = true) as ->
      by (by destruct st).
    simpl. by rewrite Status_of_to_string.
  - intros [= Heq]. by apply Status_to_string_cancelled in Heq.
Qed.

(** The witness moves a delivered order back to [pending], which is not an
    edge of the life cycle. *)
Lemma setStatus_unconditioned_witness :
  put_orders Shop.c2 "o1" (Shop.set_to pending) (Shop.shop_with delivered)
  = ({| products := Shop.stockroom;
        orders := <["o1" := set_status pending 2000 (Shop.two_mugs delivered)]>
                    (orders (Shop.shop_with delivered)) |},
     Json 200 (order_status_ok "o1" pending)).
Proof.
  apply (setStatus_unconditioned Shop.c2 "o1" (Shop.set_to pending)
           (Shop.shop_with delivered) (Shop.two_mugs delivered) pending);
    [reflexivity | reflexivity | discriminate | reflexivity].
Defined.

(** ** Duplicate products in a request *)

(** C10.  A request that names a product in two of its items is rejected
    by validation with "One or more products not found", whatever the
    products in the collection and their stock: the documents found are
    fewer than the items.  The database is unchanged. *)
Theorem duplicate_product_rejected c b db :
  customer_id b ≠ 0 →
  ¬ NoDup (productId <$> b_items b) →
  (length (Product_find_in (productId <$> b_items b) (products db))
     < length (productId <$> b_items b))%nat ∧
  post_orders c b db
  = (db, Next (Thrown 400 "One or more products not found")) ∧
  http_status (post_orders c b db).2 = 400.
Proof.
  intros Hc Hdup.
  assert (post_orders c b db
          = (db, Next (Thrown 400 "One or more products not found"))) as Hpost.
  { unfold post_orders, post_orders_validate.
    rewrite decide_False.
    - by rewrite calculateTotalAndCheckStock_duplicate.
    - intros [?|Hnil]; [done|]. rewrite Hnil in Hdup.
      apply Hdup. constructor. }
  split; [|split; [done | by rewrite Hpost]].
  set (ids := productId <$> b_items b) in *.
  assert ((Product_find_in ids (products db)).*1 ⊆+ ids) as Hsub.
  { apply NoDup_submseteq; [apply Product_find_in_NoDup|].
    intros k (d & -> & Hd)%list_elem_of_fmap.
    by apply Product_find_in_elem in Hd as [? _]. }
  apply submseteq_length in Hsub. rewrite length_fmap in Hsub.
  destruct (decide (length (Product_find_in ids (products db)) = length ids))
    as [Heq|Hne]; [|lia].
  by apply Product_find_in_length in Heq.
Qed.

Lemma duplicate_product_rejected_witness :
  post_orders Shop.c1 Shop.twice Shop.open_shop
  = (Shop.open_shop, Next (Thrown 400 "One or more products not found")).
Proof.
  apply (duplicate_product_rejected Shop.c1 Shop.twice Shop.open_shop).
  - discriminate.
  - simpl. intros Hnd. apply NoDup_cons in Hnd as [Hin _].
    apply Hin. left.
Defined.

(** ** Reserve then release *)




(** ** No oversell *)

Section overlap.
Implicit Types (ps : gmap string Product) (en : list Enriched)
  (ops : list (nat * Enriched)) (res : list UpdateResult).









End overlap.




(** ** A successful order creation *)

Section saving.
Implicit Types (en : list Enriched) (o : Order).

Lemma Order_valid_items o :
  Order_valid o = true →
  Forall (λ it, 0 ≤ quantity it ∧ 0 ≤ priceAtPurchase it) (items o).
Proof.
  unfold Order_valid. intros [Hall _]%andb_prop.
  induction (items o) as [|it l IH]; [constructor|].
  simpl in Hall. apply andb_prop in Hall as [Hit Hl].
  constructor; [|by apply IH].
  unfold OrderItem_valid in Hit. apply andb_prop in Hit as [Hq Hp].
  apply bool_decide_eq_true in Hq, Hp. lia.
Qed.

Lemma orderItems_valid en :
  forallb OrderItem_valid (orderItems en) = true
  ↔ Forall (λ e, 1 ≤ e_quantity e ∧ 0 ≤ e_priceAtPurchase e) en.
Proof.
  induction en as [|e en IH]; simpl.
  - split; [constructor | done].
  - rewrite andb_true_iff, IH, Forall_cons. unfold OrderItem_valid. simpl.
    rewrite andb_true_iff, !bool_decide_eq_true. tauto.
Qed.

Lemma post_orders_validate_inr b db total en :
  post_orders_validate b db = inr (total, en) →
  customer_id b ≠ 0 ∧ b_items b ≠ [] ∧
  calculateTotalAndCheckStock (b_items b) (products db) = Ok (total, en).
Proof.
  unfold post_orders_validate. case_decide as Hg; [done|].
  destruct (calculateTotalAndCheckStock _ _) as [r|]; [|done].
  intros [= ->]. tauto.
Qed.

(** The total that validation returns is not negative when quantities and
    prices are not. *)
Lemma validated_total_nonneg b db0 total en :
  post_orders_validate b db0 = inr (total, en) →
  Forall (λ e, 1 ≤ e_quantity e ∧ 0 ≤ e_priceAtPurchase e) en →
  0 ≤ total.
Proof.
  unfold post_orders_validate. case_decide; [done|].
  destruct (calculateTotalAndCheckStock _ _) as [r|] eqn:Hcalc; [|done].
  intros [= ->] Hen.
  apply calculateTotalAndCheckStock_spec in Hcalc as [_ ->].
  apply js_total_from_nonneg; [done|].
  unfold orderItems. apply Forall_fmap.
  eapply Forall_impl; [exact Hen|]. simpl. intros e [? ?]. lia.
Qed.
End saving.

(** C6, as the specification states it, fails.  A request of a customer
    for no mug at all is validated and its reservation succeeds, yet no
    order is created: [save()] refuses the quantity and the reply has
    status 500. *)
Lemma createOrder_quantity_zero :
  let res := post_orders Shop.c1 Desk.no_mug Shop.open_shop in
  customer_id Desk.no_mug ≠ 0 ∧ b_items Desk.no_mug ≠ [] ∧
  post_orders_validate Desk.no_mug Shop.open_shop
  = inr (0, [mkEnriched ("A", Shop.mug) 0 100]) ∧
  (reduceStock [mkEnriched ("A", Shop.mug) 0 100] Shop.stockroom).2 = Ok () ∧
  res.2 = Next (ValidationError "Order") ∧
  http_status res.2 = 500 ∧
  orders res.1 = ∅.
Proof. cbn zeta. repeat split; by vm_compute. Qed.

(** C6 (amended).  When an order creation has passed the guard and
    validation, on the database of that moment, and its reservation
    succeeds, on the database of that later moment, an order is created
    exactly when every quantity is at least 1, every price is not
    negative and the new identifier is unused.  The order then has status
    [confirmed] and an estimated delivery of the clock read at creation
    plus five days, and the reply is 201 with the order's identifier,
    status and total amount.  Otherwise the reply has status 500 and no
    order is stored.  Without another request in between, the handler is
    these two phases on one database. *)
Theorem createOrder_success c b db0 db total en :
  post_orders_validate b db0 = inr (total, en) →
  (reduceStock en (products db)).2 = Ok () →
  let res := post_orders_commit c b total en db in
  let savable :=
    Forall (λ e, 1 ≤ e_quantity e ∧ 0 ≤ e_priceAtPurchase e) en ∧
    orders db !! new_id c = None in
  customer_id b ≠ 0 ∧ b_items b ≠ [] ∧
  post_orders c b db0 = post_orders_commit c b total en db0 ∧
  (savable →
   ∃ o, res.2 = Json 201 (order_created (new_id c) (status o) (totalAmount o)) ∧
        orders res.1 = <[new_id c := o]> (orders db) ∧
        status o = confirmed ∧
        estimatedDelivery o = date_now c + 432000000 ∧
        totalAmount o = total ∧ customerId o = customer_id b) ∧
  (¬ savable → http_status res.2 = 500 ∧ orders res.1 = orders db).
Proof.
  intros Hval Hres. cbn zeta.
  pose proof Hval as (Hc & Hne & _)%post_orders_validate_inr.
  split; [done|]. split; [done|]. split.
  { unfold post_orders. by rewrite Hval. }
  assert (post_orders_commit c b total en db
          = match Order_save_new (new_id c) (new_Order c b total en)
                    (orders db) with
            | Throw e =>
                (with_products (reserve_ops en (products db)).1 db, Next e)
            | Ok os =>
                ({| products := (reserve_ops en (products db)).1;
                    orders := os |},
                 Json 201 (order_created (new_id c) confirmed total))
            end) as ->.
  { unfold post_orders_commit. rewrite reduceStock_unfold in *.
    simpl in Hres. by rewrite Hres. }
  unfold Order_save_new, Order_valid. simpl. split.
  - intros [Hen Hfresh].
    pose proof (validated_total_nonneg _ _ _ _ Hval Hen) as Hpos.
    rewrite (proj2 (orderItems_valid en) Hen), Hfresh. simpl.
    rewrite bool_decide_eq_true_2 by done. simpl.
    by exists (new_Order c b total en).
  - intros Hnot.
    destruct (forallb OrderItem_valid (orderItems en)) eqn:Hvalid;
      [|by simpl].
    simpl. case_bool_decide; [|by simpl].
    destruct (orders db !! new_id c) eqn:Hfresh; [by simpl|].
    destruct Hnot. split; [|done]. by apply orderItems_valid.
Qed.

Lemma createOrder_success_witness :
  ∃ o,
    (post_orders_commit Shop.c1 Shop.first 230 Shop.first_enriched
       Shop.open_shop).2
    = Json 201 (order_created "o1" (status o) (totalAmount o)) ∧
    orders (post_orders_commit Shop.c1 Shop.first 230 Shop.first_enriched
              Shop.open_shop).1
    = <["o1" := o]> ∅ ∧
    status o = confirmed ∧
    estimatedDelivery o = 1000 + 432000000 ∧
    totalAmount o = 230 ∧ customerId o = 7.
Proof.
  destruct (createOrder_success Shop.c1 Shop.first Shop.open_shop
              Shop.open_shop 230 Shop.first_enriched)
    as (_ & _ & _ & Hsaved & _).
  - vm_compute. reflexivity.
  - vm_compute. reflexivity.
  - apply Hsaved. split; [|reflexivity].
    repeat constructor; simpl; lia.
Defined.

(** ** The total of an order *)

(** C5, as the specification states it, fails.  Three ingots at
    9007199254740991 each: the order is stored with the total that number
    arithmetic gives, 27021597764222972, while the sum over its items of
    price at purchase times quantity is 27021597764222973. *)
Lemma total_is_rounded :
  let res := post_orders Shop.c1 Desk.three_ingots Desk.vault in
  res.2 = Json 201 (order_created "o1" confirmed 27021597764222972) ∧
  ∃ o, orders res.1 !! "o1" = Some o ∧
       totalAmount o = 27021597764222972 ∧
       items_total (items o) = 27021597764222973.
Proof.
  cbn zeta. split; [by vm_compute|].
  eexists. split; [by vm_compute|]. split; by vm_compute.
Qed.

(** C5 (amended).  In every reachable state, and in every state reached
    from a database that satisfies the schemas with totals as line 84
    accumulates them, every order whose sum over its items of price at
    purchase times quantity is at most [2 ^ 53] has that sum as its total
    amount.  The total is computed by the validation of the creation
    request, in number arithmetic, from the prices of the products as they
    are read then; and no step of the server removes an order or changes
    its items or its total. *)
Theorem order_total_fixed :
  (∀ db id o, reachable db → orders db !! id = Some o →
     items_total (items o) ≤ 2 ^ 53 →
     totalAmount o = items_total (items o)) ∧
  (∀ db db' id o, Inv db → rtc step db db' → orders db' !! id = Some o →
     items_total (items o) ≤ 2 ^ 53 →
     totalAmount o = items_total (items o)) ∧
  (∀ its ps total en,
     calculateTotalAndCheckStock its ps = Ok (total, en) →
     Forall2 (enriched_from ps) its en ∧
     total = js_total (orderItems en)) ∧
  (∀ db db' id o, step db db' → orders db !! id = Some o →
     ∃ o', orders db' !! id = Some o' ∧
           items o' = items o ∧ totalAmount o' = totalAmount o).
Proof.
  assert (∀ db id o, Inv db → orders db !! id = Some o →
            items_total (items o) ≤ 2 ^ 53 →
            totalAmount o = items_total (items o)) as Hinv.
  { intros db id o [_ Hos] Ho Hle. destruct (Hos id o Ho) as [Hv Ht].
    rewrite Ht. apply js_total_exact; [|done]. by apply Order_valid_items. }
  split; [|split; [|split]].
  - intros db id o Hreach. apply Hinv. by apply reachable_Inv.
  - intros db db' id o HI Hsteps. apply Hinv. by apply (steps_Inv db).
  - apply calculateTotalAndCheckStock_spec.
  - intros db db' id o Hstep Ho. by apply (step_same_purchase db).
Qed.

(** The witness creates the first order in the open shop and cancels it:
    its total stays 230. *)
Lemma order_total_fixed_witness :
  let db1 := (handle (POST_orders Shop.c1 Shop.first) Shop.open_shop).1 in
  ∃ o o',
    orders db1 !! "o1" = Some o ∧ totalAmount o = 230 ∧
    orders (handle (DELETE_orders Shop.c2 "o1") db1).1 !! "o1" = Some o' ∧
    items o' = items o ∧ totalAmount o' = totalAmount o.
Proof.
  cbn zeta.
  exists (new_Order Shop.c1 Shop.first 230 Shop.first_enriched).
  destruct (proj2 (proj2 (proj2 order_total_fixed))
              (handle (POST_orders Shop.c1 Shop.first) Shop.open_shop).1
              (handle (DELETE_orders Shop.c2 "o1")
                 (handle (POST_orders Shop.c1 Shop.first) Shop.open_shop).1).1
              "o1" (new_Order Shop.c1 Shop.first 230 Shop.first_enriched))
    as (o' & Ho' & Hitems & Htotal).
  - apply step_handle.
  - vm_compute. reflexivity.
  - exists o'. repeat split; first [done | by vm_compute].
Defined.

(** * Further properties of the code *)

(** ** What validation accepts and what it throws *)

Section validation_outcome.
Implicit Types (ps : gmap string Product) (its : list Item).

Lemma find_known ids ps k p :
  k ∈ ids → ps !! k = Some p →
  List.find (λ pp, bool_decide (pp.1 = k)) (Product_find_in ids ps)
  = Some (k, p).
Proof.
  intros Hk Hp.
  destruct (List.find _ _) as [d|] eqn:Hfind.
  - apply find_found in Hfind as [Hd1 Hd2].
    destruct d as [k' p']; simpl in *. congruence.
  - assert (In (k, p) (Product_find_in ids ps)) as Hin
      by (apply list_elem_of_In, Product_find_in_elem; by split).
    apply (find_none _ _ Hfind) in Hin.
    by apply bool_decide_eq_false in Hin.
Qed.

(** The documents found are as many as the identifiers exactly when the
    identifiers are distinct and all name a product. *)
Lemma Product_find_in_length_iff ids ps :
  length (Product_find_in ids ps) = length ids
  ↔ NoDup ids ∧ ∀ k, k ∈ ids → is_Some (ps !! k).
Proof.
  assert ((Product_find_in ids ps).*1 ⊆+ ids) as Hsub.
  { apply NoDup_submseteq; [apply Product_find_in_NoDup|].
    intros k (d & -> & Hd)%list_elem_of_fmap.
    by apply Product_find_in_elem in Hd as [? _]. }
  split.
  - intros Hlen. split; [by apply (Product_find_in_length _ ps)|].
    intros k Hk.
    apply submseteq_length_Permutation in Hsub;
      [|rewrite length_fmap; lia].
    rewrite <- Hsub in Hk.
    apply list_elem_of_fmap in Hk as (d & -> & Hd).
    apply Product_find_in_elem in Hd as [_ Hd]. by eexists.
  - intros [Hnd Hall]. rewrite <- (length_fmap fst).
    apply Permutation_length, NoDup_Permutation;
      [apply Product_find_in_NoDup | done |].
    intros k. split.
    + intros (d & -> & Hd)%list_elem_of_fmap.
      by apply Product_find_in_elem in Hd as [? _].
    + intros Hk. destruct (Hall k Hk) as [p Hp].
      apply list_elem_of_fmap. exists (k, p). split; [done|].
      apply Product_find_in_elem. by split.
Qed.

(** The loop of lines 80-86 over items that are all found: it stops at the
    first item that asks for more than the stock, and otherwise returns. *)
Lemma enrich_outcome ids ps its t0 :
  (∀ it, it ∈ its → productId it ∈ ids ∧ is_Some (ps !! productId it)) →
  match List.find (short_of ps) its with
  | None => ∃ t en, enrich (Product_find_in ids ps) its t0 = Ok (t, en)
  | Some it =>
      ∃ p, ps !! productId it = Some p ∧
           enrich (Product_find_in ids ps) its t0
           = Throw (Thrown 400 ("Insufficient stock for product "
                                  +:+ productId it +:+ " (" +:+ name p +:+ ")"))
  end.
Proof.
  revert t0. induction its as [|item its IH]; intros t0 Hall.
  - simpl. by exists t0, [].
  - destruct (Hall item) as [Hin [p Hp]]; [left|].
    assert (∀ it, it ∈ its →
              productId it ∈ ids ∧ is_Some (ps !! productId it)) as Hrest
      by (intros it Hit; apply Hall; by right).
    cbn [List.find enrich]. rewrite (find_known _ _ _ _ Hin Hp).
    unfold short_of at 1. rewrite Hp. simpl.
    destruct (decide (stock p < i_quantity item)) as [Hshort|Henough].
    + rewrite bool_decide_eq_true_2 by done. by exists p.
    + rewrite bool_decide_eq_false_2 by done.
      specialize (IH (js_add t0 (js_mul (price p) (i_quantity item))) Hrest).
      destruct (List.find (short_of ps) its) as [it|].
      * destruct IH as (p' & Hp' & ->). by exists p'.
      * destruct IH as (t & en & ->). simpl. by eexists _, _.
Qed.

Lemma known_items ids ps its :
  ids = productId <$> its →
  (∀ k, k ∈ ids → is_Some (ps !! k)) →
  ∀ it, it ∈ its → productId it ∈ ids ∧ is_Some (ps !! productId it).
Proof.
  intros -> Hall it Hit.
  assert (productId it ∈ productId <$> its) as Hin
    by (by apply list_elem_of_fmap_2).
  split; [done | by apply Hall].
Qed.

Lemma find_short_none ps its :
  List.find (short_of ps) its = None
  ↔ Forall (λ it, ∀ p, ps !! productId it = Some p → i_quantity it ≤ stock p)
      its.
Proof.
  induction its as [|it its IH]; simpl.
  - split; [constructor | done].
  - unfold short_of at 1. destruct (ps !! productId it) as [p|] eqn:Hp.
    + case_bool_decide as Hs.
      * split; [done|]. intros [Hit _]%Forall_cons.
        specialize (Hit p Hp). lia.
      * rewrite IH, Forall_cons. split; [|tauto].
        intros Hrest. split; [|done]. intros p' Hp'.
        assert (p' = p) as -> by congruence. lia.
    + rewrite IH, Forall_cons. split; [|tauto].
      intros Hrest. split; [|done]. intros p' Hp'. congruence.
Qed.
End validation_outcome.

Lemma enriched_from_Forall ps its en :
  Forall2 (enriched_from ps) its en →
  Forall (λ it, ∃ p, ps !! productId it = Some p ∧ i_quantity it ≤ stock p)
    its.
Proof.
  induction 1 as [|item e its en (p & Hp & Hq & _) _ IH]; constructor;
    [by exists p | done].
Qed.

Lemma length_mismatch its ps :
  length (Product_find_in (productId <$> its) ps) ≠ length (productId <$> its)
  ↔ ¬ NoDup (productId <$> its) ∨ ∃ it, it ∈ its ∧ ps !! productId it = None.
Proof.
  rewrite Product_find_in_length_iff. split.
  - intros Hnot. destruct (decide (NoDup (productId <$> its))) as [Hnd|];
      [|by left]. right.
    destruct (decide (Forall (λ it, is_Some (ps !! productId it)) its))
      as [Hall|Hex].
    + destruct Hnot. split; [done|].
      intros k (it & -> & Hit)%list_elem_of_fmap.
      rewrite Forall_forall in Hall. by apply Hall.
    + apply not_Forall_Exists in Hex; [|apply _].
      apply Exists_exists in Hex as (it & Hit & Hnone).
      exists it. split; [done|]. simpl in Hnone.
      by apply eq_None_not_Some.
  - intros [Hdup|(it & Hit & Hnone)] [Hnd Hall]; [done|].
    destruct (Hall (productId it)) as [p Hp]; [|congruence].
    by apply list_elem_of_fmap_2.
Qed.

(** X1.  Validation accepts a list of items exactly when no product is
    named twice and every item names a product that exists with stock at
    least the quantity asked. *)
Theorem validation_accepts_iff its ps :
  (∃ total en, calculateTotalAndCheckStock its ps = Ok (total, en))
  ↔ NoDup (productId <$> its) ∧
    Forall (λ it, ∃ p, ps !! productId it = Some p ∧ i_quantity it ≤ stock p)
      its.
Proof.
  split.
  - intros (total & en & Hcalc). split.
    + unfold calculateTotalAndCheckStock in Hcalc.
      case_decide as Hlen; [done|].
      apply (Product_find_in_length _ ps).
      by destruct (decide (length (Product_find_in (productId <$> its) ps)
                           = length (productId <$> its))).
    + apply calculateTotalAndCheckStock_spec in Hcalc as [Hen _].
      by apply enriched_from_Forall in Hen.
  - intros [Hnd Hall]. unfold calculateTotalAndCheckStock.
    assert (∀ k, k ∈ productId <$> its → is_Some (ps !! k)) as Hknown.
    { intros k (it & -> & Hit)%list_elem_of_fmap.
      rewrite Forall_forall in Hall.
      destruct (Hall it Hit) as (p & Hp & _). by exists p. }
    rewrite decide_False
      by (intros Hne; apply Hne, Product_find_in_length_iff; by split).
    pose proof (enrich_outcome (productId <$> its) ps its 0
                  (known_items _ ps its eq_refl Hknown)) as Hout.
    assert (List.find (short_of ps) its = None) as Hnone.
    { apply find_short_none. eapply Forall_impl; [exact Hall|].
      intros it (p & Hp & Hq) p' Hp'. simpl in *.
      assert (p' = p) as -> by congruence. done. }
    by rewrite Hnone in Hout.
Qed.

Lemma validation_accepts_iff_witness :
  ∃ total en,
    calculateTotalAndCheckStock (b_items Shop.first) Shop.stockroom
    = Ok (total, en).
Proof.
  apply (proj2 (validation_accepts_iff (b_items Shop.first) Shop.stockroom)).
  split.
  - apply (bool_decide_unpack _). vm_compute. exact I.
  - repeat constructor.
    + exists Shop.mug. split; [reflexivity | simpl; lia].
    + exists Shop.pen. split; [reflexivity | simpl; lia].
Defined.

Section cast_errors.
Variable is_ObjectId : string → bool.
Implicit Types (ps : gmap string Product) (its : list Item).

Lemma Product_find_Ok ids ps :
  Forall (λ id, is_ObjectId id = true) ids →
  Product_find is_ObjectId ids ps = Ok (Product_find_in ids ps).
Proof.
  intros Hall. unfold Product_find.
  destruct (List.find _ ids) as [bad|] eqn:Hfind; [|done].
  apply find_some in Hfind as [Hin Hbad].
  rewrite Forall_forall in Hall.
  apply list_elem_of_In, Hall in Hin. by rewrite Hin in Hbad.
Qed.

Lemma Product_find_Throw ids ps :
  ¬ Forall (λ id, is_ObjectId id = true) ids →
  ∃ bad, bad ∈ ids ∧ is_ObjectId bad = false ∧
         Product_find is_ObjectId ids ps = Throw (CastError bad).
Proof.
  intros Hnot. unfold Product_find.
  destruct (List.find _ ids) as [bad|] eqn:Hfind.
  - apply find_some in Hfind as [Hin Hbad]. exists bad.
    split; [by apply list_elem_of_In|]. split; [|done].
    by apply negb_true_iff in Hbad.
  - destruct Hnot. apply Forall_forall. intros id Hid.
    apply list_elem_of_In in Hid.
    apply (find_none _ _ Hfind) in Hid. by apply negb_false_iff in Hid.
Qed.

Lemma all_cast_ids its :
  Forall (λ it, is_ObjectId (productId it) = true) its
  ↔ Forall (λ id, is_ObjectId id = true) (productId <$> its).
Proof. by rewrite Forall_fmap. Qed.

(** On identifiers that all are ObjectIds the function is the one on cast
    identifiers; otherwise it throws the cast error. *)
Lemma calculateTotalAndCheckStock_raw_cast its ps :
  Forall (λ it, is_ObjectId (productId it) = true) its →
  calculateTotalAndCheckStock_raw is_ObjectId its ps
  = calculateTotalAndCheckStock its ps.
Proof.
  intros Hall%all_cast_ids. unfold calculateTotalAndCheckStock_raw.
  by rewrite (Product_find_Ok _ ps Hall).
Qed.

Lemma calculateTotalAndCheckStock_raw_uncast its ps :
  ¬ Forall (λ it, is_ObjectId (productId it) = true) its →
  ∃ it, it ∈ its ∧ is_ObjectId (productId it) = false ∧
        calculateTotalAndCheckStock_raw is_ObjectId its ps
        = Throw (CastError (productId it)).
Proof.
  rewrite all_cast_ids. intros Hnot.
  destruct (Product_find_Throw _ ps Hnot) as (bad & Hin & Hbad & Hthrow).
  apply list_elem_of_fmap in Hin as (it & -> & Hit).
  exists it. split; [done|]. split; [done|].
  unfold calculateTotalAndCheckStock_raw. by rewrite Hthrow.
Qed.

Lemma route_post_orders_cast c b db :
  Forall (λ it, is_ObjectId (productId it) = true) (b_items b) →
  route_post_orders is_ObjectId c b db = post_orders c b db.
Proof.
  intros Hall. unfold route_post_orders, post_orders, post_orders_validate.
  rewrite calculateTotalAndCheckStock_raw_cast by done.
  case_decide; [done|].
  by destruct (calculateTotalAndCheckStock _ _) as [[total en]|].
Qed.

Lemma route_post_orders_uncast c b db :
  customer_id b ≠ 0 →
  ¬ Forall (λ it, is_ObjectId (productId it) = true) (b_items b) →
  ∃ it, it ∈ b_items b ∧ is_ObjectId (productId it) = false ∧
        route_post_orders is_ObjectId c b db
        = (db, Next (CastError (productId it))).
Proof.
  intros Hc Hnot.
  destruct (calculateTotalAndCheckStock_raw_uncast _ (products db) Hnot)
    as (it & Hit & Hbad & Hthrow).
  exists it. split; [done|]. split; [done|].
  unfold route_post_orders. rewrite decide_False, Hthrow; [done|].
  intros [?|Hnil]; [done|]. rewrite Hnil in Hit. by apply elem_of_nil in Hit.
Qed.
End cast_errors.

Lemma calculate_throws its ps e :
  calculateTotalAndCheckStock its ps = Throw e →
  (e = Thrown 400 "One or more products not found" ∧
   (¬ NoDup (productId <$> its) ∨
    ∃ it, it ∈ its ∧ ps !! productId it = None)) ∨
  (∃ it p,
     List.find (short_of ps) its = Some it ∧ ps !! productId it = Some p ∧
     e = Thrown 400 ("Insufficient stock for product "
                       +:+ productId it +:+ " (" +:+ name p +:+ ")")).
Proof.
  unfold calculateTotalAndCheckStock.
  destruct (decide (length _ ≠ length _)) as [Hlen|Hlen].
  - intros [= <-]. left. split; [done|]. by apply length_mismatch.
  - intros Henrich.
    assert (length (Product_find_in (productId <$> its) ps)
            = length (productId <$> its)) as Heq
      by (destruct (decide (length (Product_find_in (productId <$> its) ps)
                            = length (productId <$> its))); done).
    apply Product_find_in_length_iff in Heq as [Hnd Hknown].
    pose proof (enrich_outcome (productId <$> its) ps its 0
                  (known_items _ ps its eq_refl Hknown)) as Hout.
    destruct (List.find (short_of ps) its) as [it|] eqn:Hfind.
    + destruct Hout as (p & Hp & Hthrow). rewrite Hthrow in Henrich.
      injection Henrich as <-. right. by exists it, p.
    + destruct Hout as (t & en & Hok). congruence.
Qed.

(** X2.  Validation throws only three errors: the cast error, when an
    identifier of the request is not an ObjectId; "One or more products
    not found", when a product is named twice or an item names a product
    that does not exist; and "Insufficient stock", naming the first item in
    the list that asks for more than its product's stock.  The last two
    have status 400.  The per-item "Product ... not found" of line 82 is
    never thrown. *)
Theorem validation_throws is_ObjectId its ps e :
  calculateTotalAndCheckStock_raw is_ObjectId its ps = Throw e →
  ((∃ it, it ∈ its ∧ is_ObjectId (productId it) = false ∧
          e = CastError (productId it)) ∨
   (Forall (λ it, is_ObjectId (productId it) = true) its ∧
    e = Thrown 400 "One or more products not found" ∧
    (¬ NoDup (productId <$> its) ∨
     ∃ it, it ∈ its ∧ ps !! productId it = None)) ∨
   (Forall (λ it, is_ObjectId (productId it) = true) its ∧
    ∃ it p,
      List.find (short_of ps) its = Some it ∧ ps !! productId it = Some p ∧
      e = Thrown 400 ("Insufficient stock for product "
                        +:+ productId it +:+ " (" +:+ name p +:+ ")"))) ∧
  ∀ k, e ≠ Thrown 400 ("Product " +:+ k +:+ " not found").
Proof.
  intros Hthrow.
  destruct (decide (Forall (λ it, is_ObjectId (productId it) = true) its))
    as [Hall|Hnot].
  - rewrite calculateTotalAndCheckStock_raw_cast in Hthrow by done.
    apply calculate_throws in Hthrow
      as [[-> Hwhy]|(it & p & Hfind & Hp & ->)].
    + split; [|done]. right. left. by repeat split.
    + split; [|done]. right. right. split; [done|]. by exists it, p.
  - destruct (calculateTotalAndCheckStock_raw_uncast is_ObjectId its ps Hnot)
      as (it & Hit & Hbad & Heq).
    rewrite Heq in Hthrow. injection Hthrow as <-.
    split; [|done]. left. by exists it.
Qed.

(** A request for a lamp and for something whose identifier is no
    ObjectId. *)
Lemma validation_throws_witness :
  (∃ it, it ∈ [mkItem Desk.lamp_id 1; mkItem "lamp" 1] ∧
         hex24 (productId it) = false ∧
         CastError "lamp" = CastError (productId it)) ∨
  (Forall (λ it, hex24 (productId it) = true)
     [mkItem Desk.lamp_id 1; mkItem "lamp" 1] ∧
   CastError "lamp" = Thrown 400 "One or more products not found" ∧
   (¬ NoDup (productId <$> [mkItem Desk.lamp_id 1; mkItem "lamp" 1]) ∨
    ∃ it, it ∈ [mkItem Desk.lamp_id 1; mkItem "lamp" 1] ∧
          products Desk.showroom !! productId it = None)) ∨
  (Forall (λ it, hex24 (productId it) = true)
     [mkItem Desk.lamp_id 1; mkItem "lamp" 1] ∧
   ∃ it p,
     List.find (short_of (products Desk.showroom))
       [mkItem Desk.lamp_id 1; mkItem "lamp" 1] = Some it ∧
     products Desk.showroom !! productId it = Some p ∧
     CastError "lamp"
     = Thrown 400 ("Insufficient stock for product "
                     +:+ productId it +:+ " (" +:+ name p +:+ ")")).
Proof.
  apply (validation_throws hex24 [mkItem Desk.lamp_id 1; mkItem "lamp" 1]
           (products Desk.showroom) (CastError "lamp")).
  vm_compute. reflexivity.
Defined.

(** X3.  An order creation that names a product which does not exist
    writes nothing.  When every product identifier of the request is an
    ObjectId it is answered with status 400, "One or more products not
    found"; otherwise with the cast error, status 500. *)
Theorem unknown_product_rejected is_ObjectId c b db it :
  customer_id b ≠ 0 →
  it ∈ b_items b → products db !! productId it = None →
  let res := route_post_orders is_ObjectId c b db in
  res.1 = db ∧
  (Forall (λ i, is_ObjectId (productId i) = true) (b_items b) →
   res.2 = Next (Thrown 400 "One or more products not found") ∧
   http_status res.2 = 400) ∧
  (¬ Forall (λ i, is_ObjectId (productId i) = true) (b_items b) →
   ∃ bad, bad ∈ b_items b ∧ is_ObjectId (productId bad) = false ∧
          res.2 = Next (CastError (productId bad)) ∧
          http_status res.2 = 500).
Proof.
  intros Hc Hit Hnone. cbn zeta.
  assert (Forall (λ i, is_ObjectId (productId i) = true) (b_items b) →
          route_post_orders is_ObjectId c b db
          = (db, Next (Thrown 400 "One or more products not found")))
    as Hcast.
  { intros Hall. rewrite route_post_orders_cast by done.
    unfold post_orders, post_orders_validate.
    rewrite decide_False.
    - unfold calculateTotalAndCheckStock. rewrite decide_True; [done|].
      apply length_mismatch. right. by exists it.
    - intros [?|Hnil]; [done|]. rewrite Hnil in Hit.
      by apply elem_of_nil in Hit. }
  split; [|split].
  - destruct (decide (Forall (λ i, is_ObjectId (productId i) = true)
                        (b_items b))) as [Hall|Hnot].
    + by rewrite Hcast.
    + destruct (route_post_orders_uncast is_ObjectId c b db Hc Hnot)
        as (bad & _ & _ & ->). done.
  - intros Hall. by rewrite Hcast.
  - intros Hnot.
    destruct (route_post_orders_uncast is_ObjectId c b db Hc Hnot)
      as (bad & Hin & Hbad & ->). by exists bad.
Qed.

Lemma unknown_product_rejected_witness :
  let res := route_post_orders hex24 Shop.c1
               (mkOrderBody 7 [mkItem Desk.lamp_id 1; mkItem Desk.free_id 1]
                  None)
               Desk.showroom in
  res.1 = Desk.showroom ∧
  res.2 = Next (Thrown 400 "One or more products not found") ∧
  http_status res.2 = 400.
Proof.
  cbn zeta.
  destruct (unknown_product_rejected hex24 Shop.c1
              (mkOrderBody 7 [mkItem Desk.lamp_id 1; mkItem Desk.free_id 1]
                 None)
              Desk.showroom (mkItem Desk.free_id 1))
    as (Hdb & Hcast & _).
  - discriminate.
  - right. left.
  - reflexivity.
  - split; [exact Hdb|]. apply Hcast.
    repeat constructor.
Defined.

(** X4.  When the products named are distinct and all exist, an order
    creation with an item that asks for more than the stock is answered
    with status 400, "Insufficient stock", naming the product and the
    name of the first such item; nothing is written. *)
Theorem insufficient_stock_rejected c b db it p :
  customer_id b ≠ 0 →
  NoDup (productId <$> b_items b) →
  Forall (λ i, is_Some (products db !! productId i)) (b_items b) →
  List.find (short_of (products db)) (b_items b) = Some it →
  products db !! productId it = Some p →
  post_orders c b db
  = (db, Next (Thrown 400 ("Insufficient stock for product "
                             +:+ productId it +:+ " (" +:+ name p +:+ ")"))) ∧
  http_status (post_orders c b db).2 = 400.
Proof.
  intros Hc Hnd Hall Hfind Hp.
  assert (∀ k, k ∈ productId <$> b_items b → is_Some (products db !! k))
    as Hknown.
  { intros k (i & -> & Hi)%list_elem_of_fmap.
    rewrite Forall_forall in Hall. by apply Hall. }
  pose proof (enrich_outcome (productId <$> b_items b) (products db)
                (b_items b) 0 (known_items _ _ _ eq_refl Hknown)) as Hout.
  rewrite Hfind in Hout. destruct Hout as (p' & Hp' & Hthrow).
  assert (p' = p) as -> by congruence.
  assert (post_orders c b db
          = (db, Next (Thrown 400 ("Insufficient stock for product "
               +:+ productId it +:+ " (" +:+ name p +:+ ")")))) as Hpost.
  { unfold post_orders, post_orders_validate.
    rewrite decide_False.
    - unfold calculateTotalAndCheckStock.
      rewrite decide_False
        by (intros Hne; apply Hne, Product_find_in_length_iff; by split).
      by rewrite Hthrow.
    - intros [?|Hnil]; [done|]. by rewrite Hnil in Hfind. }
  split; [done|]. rewrite Hpost. cbn [snd http_status].
  by rewrite decide_True.
Qed.

Lemma insufficient_stock_rejected_witness :
  post_orders Shop.c1 (mkOrderBody 7 [mkItem "A" 2; mkItem "B" 3] None)
    Shop.open_shop
  = (Shop.open_shop,
     Next (Thrown 400 "Insufficient stock for product B (Pen)")).
Proof.
  apply (insufficient_stock_rejected Shop.c1
           (mkOrderBody 7 [mkItem "A" 2; mkItem "B" 3] None)
           Shop.open_shop (mkItem "B" 3) Shop.pen).
  - discriminate.
  - apply (bool_decide_unpack _). vm_compute. exact I.
  - repeat constructor; by eexists.
  - reflexivity.
  - reflexivity.
Defined.

(** ** Order creation without another request in between *)

Section creation.
Implicit Types (db : Db) (ps : gmap string Product).

Lemma enrich_throws_400 found its t0 e :
  enrich found its t0 = Throw e → ∃ m, m ≠ "" ∧ e = Thrown 400 m.
Proof.
  revert t0. induction its as [|item its IH]; intros t0; simpl; [done|].
  destruct (List.find _ _) as [d|].
  - destruct (decide (stock d.2 < i_quantity item)).
    + intros [= <-]. eexists. split; [|reflexivity]. discriminate.
    + destruct (enrich found its _) as [[t en]|e'] eqn:Hrest; simpl; [done|].
      intros [= <-]. by eapply IH.
  - intros [= <-]. eexists. split; [|reflexivity]. discriminate.
Qed.

Lemma calculate_throws_400 its ps e :
  calculateTotalAndCheckStock its ps = Throw e →
  ∃ m, m ≠ "" ∧ e = Thrown 400 m.
Proof.
  unfold calculateTotalAndCheckStock. case_decide.
  - intros [= <-]. eexists. split; [|reflexivity]. discriminate.
  - apply enrich_throws_400.
Qed.

Lemma enriched_pairs_of_items ps its en :
  Forall2 (enriched_from ps) its en → enriched_pairs en = item_pairs its.
Proof.
  unfold enriched_pairs, item_pairs.
  induction 1 as [|item e its en (p & _ & _ & ->) _ IH]; [done|].
  csimpl. by f_equal.
Qed.

(** What the handler does once validation has passed and no other request
    intervenes: the reservation succeeds, and the outcome is that of
    [save()]. *)
Lemma post_orders_validated c b db total en :
  post_orders_validate b db = inr (total, en) →
  post_orders c b db
  = match Order_save_new (new_id c) (new_Order c b total en) (orders db) with
    | Throw e => (with_products (reserve_ops en (products db)).1 db, Next e)
    | Ok os =>
        ({| products := (reserve_ops en (products db)).1; orders := os |},
         Json 201 (order_created (new_id c) confirmed total))
    end ∧
  enriched_pairs en = item_pairs (b_items b) ∧
  granted en (reserve_ops en (products db)).2 = item_pairs (b_items b).
Proof.
  intros Hval. pose proof Hval as (_ & _ & Hcalc)%post_orders_validate_inr.
  pose proof (validated_reservation_succeeds _ _ _ _ Hcalc) as Hres.
  pose proof (calculateTotalAndCheckStock_spec _ _ _ _ Hcalc) as [Hen _].
  pose proof (enriched_pairs_of_items _ _ _ Hen) as Hpairs.
  split; [|split; [done|]].
  - unfold post_orders. rewrite Hval. unfold post_orders_commit.
    by rewrite Hres.
  - rewrite <- Hpairs. apply check_results_Ok.
    rewrite reduceStock_unfold in Hres. by injection Hres.
Qed.

(** What a reply 201 tells about the run. *)
Lemma post_orders_created c b db db1 pl :
  post_orders c b db = (db1, Json 201 pl) →
  ∃ total en,
    post_orders_validate b db = inr (total, en) ∧
    orders db !! new_id c = None ∧
    db1 = {| products := (reserve_ops en (products db)).1;
             orders := <[new_id c := new_Order c b total en]> (orders db) |} ∧
    pl = order_created (new_id c) confirmed total.
Proof.
  intros Hpost.
  destruct (post_orders_validate b db) as [reply|[total en]] eqn:Hval.
  - unfold post_orders in Hpost. rewrite Hval in Hpost.
    injection Hpost as <- ->. unfold post_orders_validate in Hval.
    case_decide; [done|].
    by destruct (calculateTotalAndCheckStock _ _).
  - exists total, en. split; [done|].
    destruct (post_orders_validated c b db total en Hval) as [Heq _].
    rewrite Heq in Hpost. unfold Order_save_new in Hpost.
    destruct (Order_valid _); [|done].
    destruct (orders db !! new_id c); [done|].
    by injection Hpost as <- <-.
Qed.

Lemma post_orders_created_valid c b db db1 pl total en :
  post_orders c b db = (db1, Json 201 pl) →
  post_orders_validate b db = inr (total, en) →
  Order_valid (new_Order c b total en) = true.
Proof.
  intros Hpost Hval.
  destruct (post_orders_validated c b db total en Hval) as [Heq _].
  rewrite Heq in Hpost. unfold Order_save_new in Hpost.
  by destruct (Order_valid _).
Qed.

End creation.

(** X5.  When no other request runs between validation and reservation,
    an order creation never answers with the 500 of a failed reservation;
    and once validation has passed, every product's stock is lowered by
    exactly the quantity the request asks of it. *)
Theorem sequential_createOrder c b db :
  (∀ m, (post_orders c b db).2 ≠ Next (Thrown 500 m)) ∧
  (∀ total en,
     post_orders_validate b db = inr (total, en) →
     ∀ id, stock_of (products (post_orders c b db).1) id
           = (λ s, s - quantity_of id (item_pairs (b_items b)))
               <$> stock_of (products db) id).
Proof.
  split.
  - intros m.
    destruct (post_orders_validate b db) as [reply|[total en]] eqn:Hval.
    + unfold post_orders. rewrite Hval. simpl.
      unfold post_orders_validate in Hval. case_decide.
      * by injection Hval as <-.
      * destruct (calculateTotalAndCheckStock _ _) as [r|e] eqn:Hcalc;
          [done|]. injection Hval as <-.
        apply calculate_throws_400 in Hcalc as (m' & _ & ->). congruence.
    + destruct (post_orders_validated c b db total en Hval) as [-> _].
      unfold Order_save_new. destruct (Order_valid _); [|done].
      by destruct (orders db !! new_id c).
  - intros total en Hval id.
    destruct (post_orders_validated c b db total en Hval)
      as (Hpost & _ & Hgranted).
    assert (products (post_orders c b db).1
            = (reserve_ops en (products db)).1) as ->.
    { rewrite Hpost. by destruct (Order_save_new _ _ _). }
    unfold stock_of. rewrite reserve_ops_lookup, Hgranted.
    by destruct (products db !! id).
Qed.

Lemma sequential_createOrder_witness :
  stock_of (products (post_orders Shop.c1 Shop.first Shop.open_shop).1) "A"
  = (λ s, s - quantity_of "A" (item_pairs (b_items Shop.first)))
      <$> stock_of Shop.stockroom "A".
Proof.
  apply (proj2 (sequential_createOrder Shop.c1 Shop.first Shop.open_shop)
           230 Shop.first_enriched).
  vm_compute. reflexivity.
Defined.



Lemma nonpositive_quantity_invalid ps its en it :
  Forall2 (enriched_from ps) its en → it ∈ its → i_quantity it < 1 →
  forallb OrderItem_valid (orderItems en) = false.
Proof.
  induction 1 as [|item e its en (p & _ & _ & ->) _ IH]; intros Hit Hq.
  - by apply elem_of_nil in Hit.
  - simpl. unfold OrderItem_valid at 1. simpl.
    apply elem_of_cons in Hit as [<-|Hit].
    + by rewrite bool_decide_eq_false_2 by lia.
    + rewrite IH by done. by rewrite andb_false_r.
Qed.

(** X7.  A quantity below 1 is refused only when the order is saved, after
    the reservation has run: once validation has passed, the reply is the
    validation error of [save()] with status 500, no order is stored, and
    every product's stock has been lowered by the quantity asked of it, so
    that a negative quantity raises the stock. *)
Theorem nonpositive_quantity_refused_late c b db total en it :
  post_orders_validate b db = inr (total, en) →
  it ∈ b_items b → i_quantity it < 1 →
  (post_orders c b db).2 = Next (ValidationError "Order") ∧
  http_status (post_orders c b db).2 = 500 ∧
  orders (post_orders c b db).1 = orders db ∧
  ∀ id, stock_of (products (post_orders c b db).1) id
        = (λ s, s - quantity_of id (item_pairs (b_items b)))
            <$> stock_of (products db) id.
Proof.
  intros Hval Hit Hq.
  destruct (post_orders_validated c b db total en Hval)
    as (Hpost & _ & Hgranted).
  pose proof Hval as (_ & _ & Hcalc)%post_orders_validate_inr.
  pose proof (calculateTotalAndCheckStock_spec _ _ _ _ Hcalc) as [Hen _].
  rewrite Hpost. unfold Order_save_new, Order_valid. simpl.
  rewrite (nonpositive_quantity_invalid _ _ _ _ Hen Hit Hq). simpl.
  repeat split. intros id.
  unfold stock_of. rewrite reserve_ops_lookup, Hgranted.
  by destruct (products db !! id).
Qed.

(** The witness asks for minus one mug: the stock of mugs goes from 5 to
    6 and the request is refused. *)
Lemma nonpositive_quantity_refused_late_witness :
  let res := post_orders Shop.c1 (mkOrderBody 7 [mkItem "A" (-1)] None)
               Shop.open_shop in
  res.2 = Next (ValidationError "Order") ∧
  stock_of (products res.1) "A" = Some 6.
Proof.
  cbn zeta.
  destruct (nonpositive_quantity_refused_late Shop.c1
              (mkOrderBody 7 [mkItem "A" (-1)] None) Shop.open_shop
              (-100) [mkEnriched ("A", Shop.mug) (-1) 100] (mkItem "A" (-1)))
    as (Hreply & _ & _ & Hstock).
  - vm_compute. reflexivity.
  - left.
  - simpl. lia.
  - split; [exact Hreply|]. rewrite Hstock. reflexivity.
Defined.

(** ** Replies and what they tell about the database *)

Section replies.
Implicit Types (db : Db) (r : Request).

Lemma commit_status c b total en db :
  http_status (post_orders_commit c b total en db).2 = 201 ∨
  http_status (post_orders_commit c b total en db).2 = 500.
Proof.
  unfold post_orders_commit. rewrite reduceStock_unfold.
  destruct (check_results _ _) as [[]|e] eqn:Hcheck.
  - unfold Order_save_new. destruct (Order_valid _); [|by right].
    destruct (orders db !! new_id c); [by right | by left].
  - right. apply check_results_Throw in Hcheck as (i & it & u & _ & _ & _ & _ & ->).
    cbn [snd http_status]. by destruct (decide _).
Qed.

(** The reply of an order creation is 201, 400 or 500, and 400 comes from
    the guard or from validation, before anything is written. *)
Lemma post_orders_status c b db :
  (http_status (post_orders c b db).2 = 400 ∧ (post_orders c b db).1 = db) ∨
  http_status (post_orders c b db).2 = 201 ∨
  http_status (post_orders c b db).2 = 500.
Proof.
  unfold post_orders.
  destruct (post_orders_validate b db) as [reply|[total en]] eqn:Hval.
  - left. split; [|done]. simpl. unfold post_orders_validate in Hval.
    case_decide; [by injection Hval as <-|].
    destruct (calculateTotalAndCheckStock _ _) as [?|e] eqn:Hcalc; [done|].
    injection Hval as <-.
    apply calculate_throws_400 in Hcalc as (m & Hm & ->).
    simpl. by rewrite decide_True.
  - right. apply commit_status.
Qed.

Lemma put_orders_status c id b db :
  (http_status (put_orders c id b db).2 = 200) ∨
  ((put_orders c id b db).1 = db ∧
   (http_status (put_orders c id b db).2 = 400 ∨
    http_status (put_orders c id b db).2 = 404 ∨
    http_status (put_orders c id b db).2 = 500)).
Proof.
  unfold put_orders. repeat case_match; simpl; auto.
Qed.

Lemma delete_orders_status c id db :
  (http_status (delete_orders c id db).2 = 200) ∨
  ((delete_orders c id db).1 = db ∧
   (http_status (delete_orders c id db).2 = 400 ∨
    http_status (delete_orders c id db).2 = 404)).
Proof.
  unfold delete_orders. repeat case_match; simpl; auto.
Qed.

Lemma post_products_status c b db :
  (http_status (post_products c b db).2 = 201) ∨
  ((post_products c b db).1 = db ∧
   http_status (post_products c b db).2 = 500).
Proof.
  unfold post_products.
  destruct (new_Product b) as [p|e] eqn:Hnew.
  - destruct (products db !! new_id c); simpl; auto.
  - right. split; [done|]. unfold new_Product in Hnew.
    repeat case_match; by simplify_eq.
Qed.
End replies.

(** X8.  A request that is not answered with 200 or 201 has written
    nothing, with one exception: an order creation answered with 500. *)
Theorem rejected_request_writes_nothing r db :
  http_status (handle r db).2 ≠ 200 →
  http_status (handle r db).2 ≠ 201 →
  (handle r db).1 = db ∨
  ∃ c b, r = POST_orders c b ∧ http_status (handle r db).2 = 500.
Proof.
  intros H200 H201. destruct r as [c b|c b|c id b|c id|ids]; simpl in *.
  - destruct (post_products_status c b db) as [?|[? _]]; [done | by left].
  - destruct (post_orders_status c b db) as [[_ ?]|[?|?]];
      [by left | done | right; by exists c, b].
  - destruct (put_orders_status c id b db) as [?|[? _]]; [done | by left].
  - destruct (delete_orders_status c id db) as [?|[? _]]; [done | by left].
  - done.
Qed.

Lemma rejected_request_writes_nothing_witness :
  (handle (PUT_orders Shop.c2 "o1" (mkUpdateBody (Some "lost") None))
     (Shop.shop_with confirmed)).1
  = Shop.shop_with confirmed ∨
  ∃ c b, PUT_orders Shop.c2 "o1" (mkUpdateBody (Some "lost") None)
         = POST_orders c b ∧
         http_status (handle (PUT_orders Shop.c2 "o1"
                                (mkUpdateBody (Some "lost") None))
                        (Shop.shop_with confirmed)).2 = 500.
Proof.
  apply (rejected_request_writes_nothing
           (PUT_orders Shop.c2 "o1" (mkUpdateBody (Some "lost") None))
           (Shop.shop_with confirmed)); vm_compute; discriminate.
Defined.

Section served.
Variable is_ObjectId : string → bool.

Lemma route_post_orders_status c b db :
  http_status (route_post_orders is_ObjectId c b db).2 = 201 ∨
  http_status (route_post_orders is_ObjectId c b db).2 = 400 ∨
  http_status (route_post_orders is_ObjectId c b db).2 = 500.
Proof.
  destruct (decide (Forall (λ it, is_ObjectId (productId it) = true)
                      (b_items b))) as [Hall|Hnot].
  - rewrite route_post_orders_cast by done.
    destruct (post_orders_status c b db) as [[? _]|[?|?]]; auto.
  - destruct (decide (customer_id b = 0)) as [Hc|Hc].
    + unfold route_post_orders. rewrite decide_True by auto. auto.
    + destruct (route_post_orders_uncast is_ObjectId c b db Hc Hnot)
        as (bad & _ & _ & ->). auto.
Qed.
End served.

(** X9.  Every reply of a writing route has status 200, 201, 400, 404 or
    500: 201 only from the two routes that create a document, 404 only
    from the two routes that look an order up, and from these two 500 for
    an identifier that is not an ObjectId. *)
Theorem reply_statuses is_ObjectId r db :
  match r with
  | POST_products _ _ =>
      http_status (serve is_ObjectId r db).2 = 201 ∨
      http_status (serve is_ObjectId r db).2 = 500
  | POST_orders _ _ =>
      http_status (serve is_ObjectId r db).2 = 201 ∨
      http_status (serve is_ObjectId r db).2 = 400 ∨
      http_status (serve is_ObjectId r db).2 = 500
  | PUT_orders _ id _ =>
      if is_ObjectId id
      then http_status (serve is_ObjectId r db).2 = 200 ∨
           http_status (serve is_ObjectId r db).2 = 400 ∨
           http_status (serve is_ObjectId r db).2 = 404 ∨
           http_status (serve is_ObjectId r db).2 = 500
      else http_status (serve is_ObjectId r db).2 = 500
  | DELETE_orders _ id =>
      if is_ObjectId id
      then http_status (serve is_ObjectId r db).2 = 200 ∨
           http_status (serve is_ObjectId r db).2 = 400 ∨
           http_status (serve is_ObjectId r db).2 = 404
      else http_status (serve is_ObjectId r db).2 = 500
  | POST_seed _ => http_status (serve is_ObjectId r db).2 = 200
  end.
Proof.
  destruct r as [c b|c b|c id b|c id|ids]; simpl.
  - destruct (post_products_status c b db) as [?|[_ ?]]; auto.
  - apply route_post_orders_status.
  - unfold route_put_orders. destruct (is_ObjectId id); [|done].
    destruct (put_orders_status c id b db) as [?|[_ [?|[?|?]]]]; auto.
  - unfold route_delete_orders. destruct (is_ObjectId id); [|done].
    destruct (delete_orders_status c id db) as [?|[_ [?|?]]]; auto.
  - done.
Qed.

(** ** Updates of an order and what the status route then shows *)

Lemma get_order_status_insert id o ps (os : gmap string Order) :
  get_order_status id {| products := ps; orders := <[id := o]> os |}
  = (200, status_doc id (status o) (estimatedDelivery o)).
Proof. unfold get_order_status. simpl. by rewrite lookup_insert_eq. Qed.

(** X10.  A [PUT] that carries a shipping address, and does not ask for
    [cancelled], never changes the order's status, items or total nor any
    product, even when it also carries a status: before shipping it
    stores the address and answers 200 with it, from shipping on it
    answers 400 and leaves the order as it is. *)
Theorem address_update_keeps_status c id b db o :
  orders db !! id = Some o →
  b_status b ≠ Some "cancelled" →
  truthy (b_shipping_address b) = true →
  let res := put_orders c id b db in
  products res.1 = products db ∧
  ∃ o', orders res.1 !! id = Some o' ∧
        status o' = status o ∧ same_purchase o o' ∧
        if shipped_or_later (status o)
        then o' = o ∧
             res.2 = Json 400 (error_json "Cannot change address after shipping")
        else shippingAddress o' = b_shipping_address b ∧
             res.2 = Json 200 (order_address_ok id
                                 (default "" (b_shipping_address b))).
Proof.
  intros Ho Hst Haddr. cbn zeta. unfold put_orders.
  rewrite Ho, decide_False, Haddr by done.
  destruct (shipped_or_later (status o)) eqn:Hs; simpl.
  - split; [done|]. by exists o.
  - split; [done|]. rewrite lookup_insert_eq. eexists. split; [done|].
    simpl. repeat split.
    destruct (b_shipping_address b); [done | discriminate].
Qed.

(** The witness sends a new address together with the status [shipped]
    for a confirmed order: the address is stored, the status stays. *)
Lemma address_update_keeps_status_witness :
  let res := put_orders Shop.c2 "o1"
               (mkUpdateBody (Some "shipped") (Some "12 Quay Road"))
               (Shop.shop_with confirmed) in
  products res.1 = Shop.stockroom ∧
  ∃ o', orders res.1 !! "o1" = Some o' ∧
        status o' = confirmed ∧ same_purchase (Shop.two_mugs confirmed) o' ∧
        shippingAddress o' = Some "12 Quay Road" ∧
        res.2 = Json 200 (order_address_ok "o1" "12 Quay Road").
Proof.
  apply (address_update_keeps_status Shop.c2 "o1"
           (mkUpdateBody (Some "shipped") (Some "12 Quay Road"))
           (Shop.shop_with confirmed) (Shop.two_mugs confirmed));
    [reflexivity | discriminate | reflexivity].
Defined.

(** X11.  When a route answers 200 with an order's identifier and a
    status, the status route asked next for that order answers 200 with
    the same status, and with the estimated delivery the order had
    before. *)
Theorem status_route_agrees r db id st :
  (handle r db).2 = Json 200 (order_status_ok id st) →
  ∃ o, orders db !! id = Some o ∧
       get_order_status id (handle r db).1
       = (200, status_doc id st (estimatedDelivery o)).
Proof.
  destruct r as [c b|c b|c id' b|c id'|ids]; simpl.
  - unfold post_products. by repeat case_match.
  - intros Hreply.
    destruct (post_orders c b db) as [db1 reply] eqn:Hpost.
    simpl in Hreply. subst reply. unfold post_orders in Hpost.
    destruct (post_orders_validate b db) as [reply|[total en]] eqn:Hval.
    + injection Hpost as _ ->. unfold post_orders_validate in Hval.
      by repeat case_match.
    + unfold post_orders_commit in Hpost. by repeat case_match.
  - unfold put_orders.
    destruct (orders db !! id') as [o|] eqn:Ho; [|done].
    repeat case_match; simpl; try done;
      intros [= <- <-]; exists o; by rewrite get_order_status_insert.
  - unfold delete_orders.
    destruct (orders db !! id') as [o|] eqn:Ho; [|done].
    case_match; simpl; [done|].
    intros [= <- <-]. exists o. rewrite get_order_status_insert.
    split; [done|]. case_decide; simpl; congruence.
  - done.
Qed.

Lemma status_route_agrees_witness :
  ∃ o, orders (Shop.shop_with delivered) !! "o1" = Some o ∧
       get_order_status "o1"
         (handle (PUT_orders Shop.c2 "o1" (Shop.set_to pending))
            (Shop.shop_with delivered)).1
       = (200, status_doc "o1" pending (estimatedDelivery o)).
Proof.
  apply (status_route_agrees
           (PUT_orders Shop.c2 "o1" (Shop.set_to pending))
           (Shop.shop_with delivered) "o1" pending).
  reflexivity.
Defined.

(** X12.  The identifier that a creation answers 201 with was unknown to
    the status route before, and afterwards the status route answers 200
    for it with status [confirmed] and the clock read at creation plus
    five days. *)
Theorem created_order_status c b db db1 pl :
  post_orders c b db = (db1, Json 201 pl) →
  get_order_status (new_id c) db = (404, read_error "Order not found") ∧
  get_order_status (new_id c) db1
  = (200, status_doc (new_id c) confirmed (date_now c + 432000000)) ∧
  ∃ total, pl = order_created (new_id c) confirmed total.
Proof.
  intros (total & en & _ & Hfresh & -> & ->)%post_orders_created.
  unfold get_order_status. simpl. rewrite Hfresh, lookup_insert_eq.
  repeat split. by exists total.
Qed.

Lemma created_order_status_witness :
  get_order_status "o1" (post_orders Shop.c1 Shop.first Shop.open_shop).1
  = (200, status_doc "o1" confirmed (1000 + 432000000)).
Proof.
  apply (created_order_status Shop.c1 Shop.first Shop.open_shop
           (post_orders Shop.c1 Shop.first Shop.open_shop).1
           (order_created "o1" confirmed 230)).
  vm_compute. reflexivity.
Defined.

(** ** Products *)

(** X13.  A product creation answered with 201 stores a product with a
    non-negative price and stock, the stock being 0 when the request gives
    none; the product route then returns it under the identifier of the
    reply, which it did not know before; the other products and the
    orders are as before. *)
Theorem created_product_is_served c b db db1 pl :
  post_products c b db = (db1, Json 201 pl) →
  ∃ p,
    pl = product_json (new_id c) p ∧
    get_product (new_id c) db = (404, read_error "Product not found") ∧
    get_product (new_id c) db1 = (200, product_doc (new_id c) p) ∧
    0 ≤ price p ∧ 0 ≤ stock p ∧ stock p = default 0 (b_stock b) ∧
    (∀ k, k ≠ new_id c → get_product k db1 = get_product k db) ∧
    orders db1 = orders db.
Proof.
  unfold post_products.
  destruct (new_Product b) as [p|e] eqn:Hnew; [|done].
  destruct (products db !! new_id c) eqn:Hfresh; [done|].
  intros [= <- <-]. exists p. unfold get_product. simpl.
  rewrite Hfresh, lookup_insert_eq.
  unfold new_Product in Hnew.
  destruct (b_name b), (b_price b); try done.
  destruct (_ && _) eqn:Hok; [|done]. injection Hnew as <-. simpl.
  apply andb_prop in Hok as [[_ Hpr]%andb_prop Hst].
  apply bool_decide_eq_true in Hpr, Hst.
  repeat split; try done.
  intros k Hk. by rewrite lookup_insert_ne.
Qed.

Lemma created_product_is_served_witness :
  ∃ p,
    product_json "C" (mkProduct "Ink" None 250 0 None) = product_json "C" p ∧
    get_product "C" Shop.open_shop = (404, read_error "Product not found") ∧
    get_product "C"
      (post_products (mkCtx 0 0 "C")
         (mkProductBody (Some "Ink") None (Some 250) None None)
         Shop.open_shop).1
    = (200, product_doc "C" p) ∧
    0 ≤ price p ∧ 0 ≤ stock p ∧ stock p = 0 ∧
    (∀ k, k ≠ "C" →
       get_product k
         (post_products (mkCtx 0 0 "C")
            (mkProductBody (Some "Ink") None (Some 250) None None)
            Shop.open_shop).1
       = get_product k Shop.open_shop) ∧
    orders (post_products (mkCtx 0 0 "C")
              (mkProductBody (Some "Ink") None (Some 250) None None)
              Shop.open_shop).1
    = orders Shop.open_shop.
Proof.
  apply (created_product_is_served (mkCtx 0 0 "C")
           (mkProductBody (Some "Ink") None (Some 250) None None)
           Shop.open_shop).
  vm_compute. reflexivity.
Defined.

(** ** Reseeding the catalogue *)

Section seed.
Implicit Types (db : Db) (ids : list string).

Lemma post_seed_unknown ids db k :
  k ∉ ids → products (post_seed ids db).1 !! k = None.
Proof.
  intros Hk. simpl. apply not_elem_of_list_to_map_1.
  intros ([k' p] & -> & Hin)%list_elem_of_fmap.
  by apply elem_of_zip_l in Hin.
Qed.

Lemma quantity_of_absent id (its : list (string * Z)) :
  (∀ it, it ∈ its → it.1 ≠ id) → quantity_of id its = 0.
Proof.
  induction its as [|[k q] its IH]; intros Hall; [done|].
  rewrite quantity_of_cons, IH by (intros it Hit; apply Hall; by right).
  rewrite decide_False; [done|]. apply (Hall (k, q)). by left.
Qed.

(** Releasing items whose products do not exist changes nothing. *)
Lemma restoreStock_absent (its : list (string * Z)) ps :
  (∀ it, it ∈ its → ps !! it.1 = None) → restoreStock its ps = ps.
Proof.
  intros Hall. apply map_eq. intros id. rewrite restoreStock_lookup.
  destruct (ps !! id) as [p|] eqn:Hp; simpl; [|done].
  f_equal. apply set_stock_same. rewrite quantity_of_absent; [lia|].
  intros it Hit Heq. specialize (Hall it Hit). congruence.
Qed.
End seed.

(** X14.  Seeding with five distinct identifiers replaces the catalogue:
    afterwards it holds exactly five products, the samples in their order
    under the identifiers given, every other identifier is unknown, and
    the orders are untouched. *)
Theorem seed_replaces_catalogue ids db :
  NoDup ids → length ids = 5%nat →
  let db1 := (post_seed ids db).1 in
  orders db1 = orders db ∧
  size (products db1) = 5%nat ∧
  (∀ k, k ∉ ids → products db1 !! k = None) ∧
  (∀ (i : nat) k, ids !! i = Some k → products db1 !! k = sample !! i).
Proof.
  intros Hnd Hlen. cbn zeta.
  assert ((zip ids sample).*1 = ids) as Hfst
    by (apply fst_zip; rewrite Hlen; simpl; lia).
  split; [done|]. split; [|split].
  - simpl. rewrite map_size_list_to_map by (by rewrite Hfst).
    rewrite length_zip_with, Hlen. reflexivity.
  - intros k. apply post_seed_unknown.
  - intros i k Hi. simpl.
    destruct (sample !! i) as [p|] eqn:Hp.
    + apply elem_of_list_to_map_1; [by rewrite Hfst|].
      apply (list_elem_of_lookup_2 _ i).
      apply lookup_zip_with_Some. by exists k, p.
    + apply lookup_ge_None in Hp. apply lookup_lt_Some in Hi.
      simpl in Hp. lia.
Qed.

Lemma seed_replaces_catalogue_witness :
  (get_product "s2" (post_seed ["s1"; "s2"; "s3"; "s4"; "s5"]
                       Shop.open_shop).1).1 = 200 ∧
  products (post_seed ["s1"; "s2"; "s3"; "s4"; "s5"] Shop.open_shop).1 !! "A"
  = None.
Proof.
  destruct (seed_replaces_catalogue ["s1"; "s2"; "s3"; "s4"; "s5"]
              Shop.open_shop) as (_ & _ & Hgone & Hthere).
  - apply (bool_decide_unpack _). vm_compute. exact I.
  - reflexivity.
  - split.
    + unfold get_product. by rewrite (Hthere 1%nat "s2" eq_refl).
    + apply Hgone. apply (bool_decide_unpack _). vm_compute. exact I.
Defined.

(** X15.  After the catalogue has been reseeded under identifiers that
    none of an order's items uses, cancelling that order, by either route,
    still answers 200 but gives no stock back: the products are those the
    seeding stored. *)
Theorem cancel_after_reseed ids c id b db o :
  orders db !! id = Some o →
  shipped_or_later (status o) = false →
  b_status b = Some "cancelled" →
  (∀ it, it ∈ items o → product it ∉ ids) →
  let db1 := (post_seed ids db).1 in
  products (put_orders c id b db1).1 = products db1 ∧
  products (delete_orders c id db1).1 = products db1 ∧
  (put_orders c id b db1).2 = Json 200 (order_status_ok id cancelled) ∧
  (delete_orders c id db1).2 = Json 200 (order_status_ok id cancelled).
Proof.
  intros Ho Hns Hb Hitems. cbn zeta.
  set (db1 := (post_seed ids db).1).
  assert (orders db1 !! id = Some o) as Ho1 by done.
  rewrite (put_cancel_not_shipped c id b db1 o Ho1 Hns Hb).
  rewrite (delete_not_shipped c id db1 o Ho1 Hns).
  assert (restoreStock (order_items_to_restore o) (products db1)
          = products db1) as Hsame.
  { apply restoreStock_absent.
    intros [k q] (it & [= -> ->] & Hit)%list_elem_of_fmap.
    apply post_seed_unknown. by apply Hitems. }
  unfold cancelled_db. cbn [fst snd products]. by rewrite Hsame.
Qed.

Lemma cancel_after_reseed_witness :
  let db1 := (post_seed ["s1"; "s2"; "s3"; "s4"; "s5"]
                (Shop.shop_with confirmed)).1 in
  products (delete_orders Shop.c2 "o1" db1).1 = products db1.
Proof.
  cbn zeta.
  apply (cancel_after_reseed ["s1"; "s2"; "s3"; "s4"; "s5"] Shop.c2 "o1"
           Shop.cancel (Shop.shop_with confirmed) (Shop.two_mugs confirmed));
    [reflexivity | reflexivity | reflexivity |].
  intros it Hit. apply list_elem_of_singleton in Hit as ->.
  apply (bool_decide_unpack _). vm_compute. exact I.
Defined.

(** ** What the routes leave alone *)

Section frames.
Implicit Types (db : Db) (os : gmap string Order) (o : Order).

Lemma rewrite_order_frame os id o o' :
  os !! id = Some o → same_origin o o' →
  (∀ k o0, os !! k = Some o0 →
     ∃ o1, <[id := o']> os !! k = Some o1 ∧ same_origin o0 o1) ∧
  dom (<[id := o']> os) = dom os.
Proof.
  intros Ho Hsame. split.
  - intros k o0 Hk. destruct (decide (id = k)) as [->|Hne].
    + rewrite lookup_insert_eq. exists o'. split; [done|]. congruence.
    + rewrite lookup_insert_ne by done. exists o0. by split.
  - by apply dom_insert_lookup_L.
Qed.

Lemma keep_orders_frame os :
  (∀ k o0, os !! k = Some o0 → ∃ o1, os !! k = Some o1 ∧ same_origin o0 o1) ∧
  dom os = dom os.
Proof. split; [|done]. intros k o0 Hk. by exists o0. Qed.

Lemma put_orders_frame c id b db :
  (∀ k o0, orders db !! k = Some o0 →
     ∃ o1, orders (put_orders c id b db).1 !! k = Some o1 ∧ same_origin o0 o1) ∧
  dom (orders (put_orders c id b db).1) = dom (orders db).
Proof.
  unfold put_orders. destruct (orders db !! id) as [o|] eqn:Ho;
    [|apply keep_orders_frame].
  repeat case_match; simpl;
    first [apply keep_orders_frame | by apply (rewrite_order_frame _ _ o)].
Qed.

Lemma delete_orders_frame c id db :
  (∀ k o0, orders db !! k = Some o0 →
     ∃ o1, orders (delete_orders c id db).1 !! k = Some o1 ∧
           same_origin o0 o1) ∧
  dom (orders (delete_orders c id db).1) = dom (orders db).
Proof.
  unfold delete_orders. destruct (orders db !! id) as [o|] eqn:Ho;
    [|apply keep_orders_frame].
  case_match; simpl; [apply keep_orders_frame|].
  apply (rewrite_order_frame _ _ o); [done|]. by case_decide.
Qed.

(** A map that differs from another by the stock of its products only. *)
Lemma restocked_article (ps ps' : gmap string Product) (f : Product → Z) k :
  ps' !! k = (λ p, set_stock (f p) p) <$> ps !! k →
  match ps !! k, ps' !! k with
  | Some p, Some p' => same_article p p'
  | None, None => True
  | _, _ => False
  end.
Proof. intros ->. by destruct (ps !! k). Qed.

Lemma unchanged_article (ps : gmap string Product) k :
  match ps !! k, ps !! k with
  | Some p, Some p' => same_article p p'
  | None, None => True
  | _, _ => False
  end.
Proof. by destruct (ps !! k). Qed.
End frames.

(** X16.  No route removes an order or changes its customer, its creation
    date or its estimated delivery.  The only way the set of order
    identifiers changes is an order creation answered with 201, which adds
    the one identifier of the new order, unused until then. *)
Theorem orders_only_grow r db :
  (∀ k o, orders db !! k = Some o →
     ∃ o', orders (handle r db).1 !! k = Some o' ∧ same_origin o o') ∧
  (dom (orders (handle r db).1) = dom (orders db) ∨
   ∃ c b, r = POST_orders c b ∧
          http_status (handle r db).2 = 201 ∧
          (new_id c ∉ dom (orders db)) ∧
          dom (orders (handle r db).1) = {[new_id c]} ∪ dom (orders db)).
Proof.
  destruct r as [c b|c b|c id b|c id|ids]; simpl.
  - assert (orders (post_products c b db).1 = orders db) as ->
      by (unfold post_products; by repeat case_match).
    destruct (keep_orders_frame (orders db)). auto.
  - unfold post_orders.
    destruct (post_orders_validate b db) as [reply|[total en]];
      [destruct (keep_orders_frame (orders db)); auto|].
    unfold post_orders_commit. rewrite reduceStock_unfold.
    destruct (check_results _ _);
      [|destruct (keep_orders_frame (orders db)); auto].
    unfold Order_save_new. destruct (Order_valid _);
      [|destruct (keep_orders_frame (orders db)); auto].
    destruct (orders db !! new_id c) eqn:Hfresh;
      [destruct (keep_orders_frame (orders db)); auto|].
    simpl. split.
    + intros k o Hk. exists o. split; [|done].
      rewrite lookup_insert_ne; [done | congruence].
    + right. exists c, b. repeat split.
      * by apply not_elem_of_dom.
      * apply dom_insert_L.
  - destruct (put_orders_frame c id b db). auto.
  - destruct (delete_orders_frame c id db). auto.
  - destruct (keep_orders_frame (orders db)). auto.
Qed.

Lemma orders_only_grow_witness :
  ∃ o', orders (handle (DELETE_orders Shop.c2 "o1")
                  (Shop.shop_with confirmed)).1 !! "o1" = Some o' ∧
        same_origin (Shop.two_mugs confirmed) o'.
Proof.
  apply (proj1 (orders_only_grow (DELETE_orders Shop.c2 "o1")
                  (Shop.shop_with confirmed)) "o1" (Shop.two_mugs confirmed)).
  reflexivity.
Defined.

Lemma put_orders_products c id b db :
  products (put_orders c id b db).1 = products db ∨
  ∃ its, products (put_orders c id b db).1 = restoreStock its (products db).
Proof.
  unfold put_orders. repeat case_match; simpl; eauto.
Qed.

Lemma delete_orders_products c id db :
  products (delete_orders c id db).1 = products db ∨
  ∃ its, products (delete_orders c id db).1 = restoreStock its (products db).
Proof.
  unfold delete_orders. repeat case_match; simpl; eauto.
Qed.

(** X17.  The routes that serve orders change nothing of the catalogue but
    stock: they neither add nor remove a product, and leave every
    product's name, description, price and category as they are. *)
Theorem order_routes_touch_only_stock r db k :
  order_route r = true →
  match products db !! k, products (handle r db).1 !! k with
  | Some p, Some p' => same_article p p'
  | None, None => True
  | _, _ => False
  end.
Proof.
  destruct r as [c b|c b|c id b|c id|ids]; simpl; try done; intros _.
  - unfold post_orders.
    destruct (post_orders_validate b db) as [reply|[total en]];
      [apply unchanged_article|].
    assert (products (post_orders_commit c b total en db).1
            = (reserve_ops en (products db)).1) as ->.
    { unfold post_orders_commit. rewrite reduceStock_unfold.
      by repeat case_match. }
    eapply restocked_article. apply reserve_ops_lookup.
  - destruct (put_orders_products c id b db) as [->|[its ->]];
      [apply unchanged_article|].
    eapply restocked_article. apply restoreStock_lookup.
  - destruct (delete_orders_products c id db) as [->|[its ->]];
      [apply unchanged_article|].
    eapply restocked_article. apply restoreStock_lookup.
Qed.

Lemma order_routes_touch_only_stock_witness :
  match products Shop.open_shop !! "A",
        products (handle (POST_orders Shop.c1 Shop.first) Shop.open_shop).1
          !! "A" with
  | Some p, Some p' => same_article p p'
  | None, None => True
  | _, _ => False
  end.
Proof.
  apply (order_routes_touch_only_stock (POST_orders Shop.c1 Shop.first)
           Shop.open_shop "A").
  reflexivity.
Defined.


(** ** Reservation on the collection as it is now *)

Section reservation_now.
Implicit Types (ps : gmap string Product) (en : list Enriched).

Lemma reserve_ops_all_matched_inv en ps :
  NoDup (enriched_pairs en).*1 →
  check_results en (reserve_ops en ps).2 = Ok () →
  Forall (λ e, ∃ p, ps !! (e_product e).1 = Some p ∧ e_quantity e ≤ stock p)
    en.
Proof.
  revert ps. induction en as [|it en IH]; intros ps Hnd Hcheck;
    [constructor|].
  simpl in Hnd. apply NoDup_cons in Hnd as [Hnotin Hnd].
  rewrite reserve_ops_cons in Hcheck. cbn zeta in Hcheck.
  simpl snd in Hcheck. cbn [check_results] in Hcheck.
  set (cond := λ p : Product, bool_decide (e_quantity it ≤ stock p)) in *.
  pose proof (updateOne_failed_iff (e_product it).1 cond
                (- e_quantity it) ps) as Hf. cbn zeta in Hf.
  destruct (decide (_ ∧ _)) as [?|Hgood]; [done|].
  assert (matchedCount (updateOne (e_product it).1 cond
                          (- e_quantity it) ps).2 ≠ 0) as Hm by tauto.
  apply updateOne_matched in Hm as (p & Hp & Hc).
  rewrite (updateOne_hit _ _ _ _ _ Hp Hc) in Hcheck. simpl fst in Hcheck.
  apply bool_decide_eq_true in Hc.
  constructor; [by exists p|].
  apply IH in Hcheck; [|done].
  apply Forall_forall. intros e He.
  rewrite Forall_forall in Hcheck.
  destruct (Hcheck e He) as (p' & Hp' & Hq').
  exists p'. split; [|done].
  rewrite lookup_insert_ne in Hp'; [done|].
  intros Heq. apply Hnotin. rewrite Heq.
  apply list_elem_of_fmap. exists ((e_product e).1, e_quantity e).
  split; [done|]. apply list_elem_of_fmap. by exists e.
Qed.
End reservation_now.

(** X18.  For items on distinct products, the reservation succeeds
    exactly when every product exists in the collection as it is when the
    reservation runs, with stock at least the quantity asked; what
    validation read earlier plays no part. *)
Theorem reservation_succeeds_iff en ps :
  NoDup (enriched_pairs en).*1 →
  (reduceStock en ps).2 = Ok ()
  ↔ Forall (λ e, ∃ p, ps !! (e_product e).1 = Some p ∧ e_quantity e ≤ stock p)
      en.
Proof.
  intros Hnd. rewrite reduceStock_unfold. simpl. split.
  - by apply reserve_ops_all_matched_inv.
  - by apply reserve_ops_all_matched.
Qed.

(** The witness is the reservation of the first order after the second
    one has taken the pen: it does not succeed. *)
Lemma reservation_succeeds_iff_witness :
  ¬ Forall (λ e, ∃ p,
              products (post_orders Shop.c2 Shop.second Shop.open_shop).1
                !! (e_product e).1 = Some p ∧ e_quantity e ≤ stock p)
      Shop.first_enriched.
Proof.
  intros Hall.
  apply (proj2 (reservation_succeeds_iff Shop.first_enriched
           (products (post_orders Shop.c2 Shop.second Shop.open_shop).1)
           ltac:(apply (bool_decide_unpack _); vm_compute; exact I)))
    in Hall.
  vm_compute in Hall. discriminate.
Defined.



(** ** Reading an order back *)

Lemma populate_enriched ps ps1 its en :
  Forall2 (enriched_from ps) its en →
  (∀ k p, ps !! k = Some p → ∃ n, ps1 !! k = Some (set_stock n p)) →
  Forall2 (λ it pop, ∃ pp, pop = Some pp ∧ pp_id pp = product it ∧
                           pp_price pp = priceAtPurchase it)
    (orderItems en) (populate ps1 <$> orderItems en).
Proof.
  intros Hen Hps1.
  induction Hen as [|item e its en (p & Hp & _ & ->) _ IH]; csimpl;
    constructor; [|done].
  unfold populate. simpl. destruct (Hps1 _ _ Hp) as [n ->]. simpl.
  eexists. by repeat split.
Qed.

(** X20.  The order route asked for an order just created answers 200 with
    the order, in which every item is populated with its product, the
    product's price being the item's price at purchase; the order's total
    is the sum over its items of price at purchase times quantity whenever
    that sum is at most [2 ^ 53]. *)
Theorem created_order_is_populated c b db db1 pl :
  post_orders c b db = (db1, Json 201 pl) →
  ∃ o pops,
    get_order (new_id c) db1 = (200, order_doc (new_id c) o pops) ∧
    (items_total (items o) ≤ 2 ^ 53 →
     totalAmount o = items_total (items o)) ∧
    Forall2 (λ it pop, ∃ pp, pop = Some pp ∧ pp_id pp = product it ∧
                             pp_price pp = priceAtPurchase it)
      (items o) pops.
Proof.
  intros Hpost.
  pose proof Hpost
    as (total & en & Hval & Hfresh & -> & ->)%post_orders_created.
  pose proof (post_orders_created_valid _ _ _ _ _ _ _ Hpost Hval) as Hvalid.
  apply post_orders_validate_inr in Hval as (_ & _ & Hcalc).
  apply calculateTotalAndCheckStock_spec in Hcalc as [Hen Htotal].
  unfold get_order. simpl. rewrite lookup_insert_eq.
  eexists _, _. split; [done|]. split.
  - simpl. intros Hle. rewrite Htotal. apply js_total_exact; [|done].
    by apply (Order_valid_items (new_Order c b total en)).
  - simpl. apply (populate_enriched (products db) _ (b_items b)); [done|].
    intros k p Hp. rewrite reserve_ops_lookup, Hp. simpl. by eexists.
Qed.

Lemma created_order_is_populated_witness :
  ∃ o pops,
    get_order "o1" (post_orders Shop.c1 Shop.first Shop.open_shop).1
    = (200, order_doc "o1" o pops) ∧
    (items_total (items o) ≤ 2 ^ 53 →
     totalAmount o = items_total (items o)) ∧
    Forall2 (λ it pop, ∃ pp, pop = Some pp ∧ pp_id pp = product it ∧
                             pp_price pp = priceAtPurchase it)
      (items o) pops.
Proof.
  apply (created_order_is_populated Shop.c1 Shop.first Shop.open_shop
           (post_orders Shop.c1 Shop.first Shop.open_shop).1
           (order_created "o1" confirmed 230)).
  vm_compute. reflexivity.
Defined.
